(** * The marshalling layer of the Python worker
      ([azure/functions_worker/bindings/meta.py])

    A shallow embedding of [Datum], its wire conversions, the
    type-annotation matcher, the binding lookup and the decode/encode
    facade, followed by the properties the specification states about
    them.  Python exceptions are values of [exn]; a call that may raise
    returns a [result]. *)

From Stdlib Require Import ZArith String Ascii List Bool Lia.
From Stdlib Require Import Strings.Byte.
From stdpp Require Import gmap strings.
Import ListNotations.

Local Open Scope string_scope.
Set Warnings "-register-all".

(** ** Exceptions and results *)

Inductive exn : Type :=
| NotImplementedError (msg : string)
| TypeError (msg : string)
| NameError (name : string)
| AttributeError (msg : string)
| KeyError (key : string)
| OtherError (msg : string).

Inductive result (A : Type) : Type :=
| Ok (a : A)
| Raise (e : exn).

Arguments Ok {A} a.
Arguments Raise {A} e.

Declare Scope py_scope.
Notation "'let*' x ':=' c 'in' k" :=
  (match c with Ok x => k | Raise e => Raise e end)
  (at level 10, x name, c at level 100, k at level 200, only parsing) : py_scope.
Local Open Scope py_scope.

Definition returns {A : Type} (r : result A) : bool :=
  match r with Ok _ => true | Raise _ => false end.

(** [x in s]: [part] occurs in [msg]. *)
Definition contains (msg part : string) : Prop :=
  exists pre post : string, msg = pre +:+ part +:+ post.

(** The double-quote character of the encode diagnostic. *)
Definition dquote : string := String (ascii_of_nat 34) EmptyString.

(** ** Python values

    The payloads that cross this module: [None], integers, floats, text,
    byte strings, [dict]s keyed by text (in insertion order) and instances
    of [Datum] or of a class derived from it.  A class of that family is
    written as the chain of derived class names below [Datum]; the empty
    chain is [Datum] itself.  Derived classes inherit [__eq__] and
    [__hash__]. *)

Definition dclass : Type := list string.

Definition Datum : dclass := [].

(** A float is NaN, an infinity, or the finite value [m * 2^e]. *)
Inductive pyfloat : Type :=
| FNan
| FInf (negative : bool)
| FFinite (m e : Z).

Inductive pyval : Type :=
| PNone
| PInt (z : Z)
| PStr (s : string)
| PBytes (b : list byte)
| PDict (items : list (string * pyval))
| PDatum (cls : dclass) (value : pyval) (type : pyval)
| PFloat (f : pyfloat).

(** [m * 2^e] as a multiple of [2^low], for [low <= e]. *)
Definition scaled (m e low : Z) : Z := (m * 2 ^ (e - low))%Z.

(** [x == y] on floats compares the values; NaN equals nothing, itself
    included.  An integer is compared with a float as the value [z * 2^0]. *)
Definition float_eqb (x y : pyfloat) : bool :=
  match x, y with
  | FInf s, FInf s' => Bool.eqb s s'
  | FFinite m e, FFinite m' e' =>
      Z.eqb (scaled m e (Z.min e e')) (scaled m' e' (Z.min e e'))
  | _, _ => false
  end.

Fixpoint is_prefix (d c : dclass) : bool :=
  match d, c with
  | [], _ => true
  | _ :: _, [] => false
  | x :: d', y :: c' => String.eqb x y && is_prefix d' c'
  end.

(** [issubclass(c, d)] inside the [Datum] family. *)
Definition issubclass_d (c d : dclass) : bool := is_prefix d c.

Fixpoint dclass_eqb (c d : dclass) : bool :=
  match c, d with
  | [], [] => true
  | x :: c', y :: d' => String.eqb x y && dclass_eqb c' d'
  | _, _ => false
  end.

(** [isinstance(o, c)] for a class [c] of the [Datum] family. *)
Definition isinstance_d (o : pyval) (c : dclass) : bool :=
  match o with
  | PDatum co _ _ => issubclass_d co c
  | _ => false
  end.

(** [type(obj).__name__] *)
Definition type_name (v : pyval) : string :=
  match v with
  | PNone => "NoneType"
  | PInt _ => "int"
  | PStr _ => "str"
  | PBytes _ => "bytes"
  | PDict _ => "dict"
  | PDatum c _ _ => List.last c "Datum"
  | PFloat _ => "float"
  end.

(** [d.get(k)] / [d[k]] on the items of a dict. *)
Fixpoint assoc {A : Type} (k : string) (items : list (string * A)) : option A :=
  match items with
  | [] => None
  | (k', v) :: rest => if String.eqb k k' then Some v else assoc k rest
  end.

Fixpoint bytes_eqb (x y : list byte) : bool :=
  match x, y with
  | [], [] => true
  | a :: x', b :: y' => Byte.eqb a b && bytes_eqb x' y'
  | _, _ => false
  end.

(** *** Equality: [Datum.__eq__] (lines 16-20) and the [==] operator *)

(** The method itself; [eqv] is [==] on the two fields. *)
Definition Datum__eq__ (eqv : pyval -> pyval -> bool) (self other : pyval) : bool :=
  match self with
  | PDatum c value type =>
      if negb (isinstance_d other c) then false
      else match other with
           | PDatum _ value' type' => eqv value value' && eqv type type'
           | _ => false
           end
  | _ => false
  end.

(** [dict.__eq__]: same number of items, and every key of the left operand
    is a key of the right one with [==] values. *)
Definition dict_eq (eqv : pyval -> pyval -> bool)
    (xs ys : list (string * pyval)) : bool :=
  Nat.eqb (length xs) (length ys) &&
  forallb (fun kv => match assoc (fst kv) ys with
                     | Some v' => eqv (snd kv) v'
                     | None => false
                     end) xs.

(** The operator [a == b], with [n] levels of nesting left to visit.  When
    the class of the right operand is a proper subclass of the class of the
    left one, its reflected method is tried first; a builtin left operand
    answers [NotImplemented] to a [Datum], so the [Datum]'s method decides. *)
Fixpoint rich_eq (n : nat) (a b : pyval) : bool :=
  match n with
  | O => false
  | S n' =>
      match a, b with
      | PDatum ca _ _, PDatum cb _ _ =>
          if negb (dclass_eqb ca cb) && issubclass_d cb ca
          then Datum__eq__ (rich_eq n') b a
          else Datum__eq__ (rich_eq n') a b
      | PDatum _ _ _, _ => Datum__eq__ (rich_eq n') a b
      | _, PDatum _ _ _ => Datum__eq__ (rich_eq n') b a
      | PNone, PNone => true
      | PInt x, PInt y => Z.eqb x y
      | PFloat x, PFloat y => float_eqb x y
      | PInt x, PFloat y => float_eqb (FFinite x 0) y
      | PFloat x, PInt y => float_eqb x (FFinite y 0)
      | PStr s, PStr t => String.eqb s t
      | PBytes x, PBytes y => bytes_eqb x y
      | PDict xs, PDict ys => dict_eq (rich_eq n') xs ys
      | _, _ => false
      end
  end.

Fixpoint depth (v : pyval) : nat :=
  match v with
  | PDict items =>
      S ((fix go (l : list (string * pyval)) : nat :=
            match l with
            | [] => O
            | kv :: rest => Nat.max (depth (snd kv)) (go rest)
            end) items)
  | PDatum _ value type => S (Nat.max (depth value) (depth type))
  | _ => O
  end.

Definition py_eq (a b : pyval) : bool := rich_eq (S (depth a)) a b.

(** Dict values are well formed when no key occurs twice. *)
Fixpoint distinct (ks : list string) : bool :=
  match ks with
  | [] => true
  | k :: rest => negb (existsb (String.eqb k) rest) && distinct rest
  end.

Fixpoint wf_val (v : pyval) : bool :=
  match v with
  | PDict items =>
      distinct (map fst items) &&
      (fix go (l : list (string * pyval)) : bool :=
         match l with
         | [] => true
         | kv :: rest => wf_val (snd kv) && go rest
         end) items
  | PDatum _ value type => wf_val value && wf_val type
  | _ => true
  end.

(** No NaN anywhere in the value. *)
Fixpoint nan_free (v : pyval) : bool :=
  match v with
  | PFloat FNan => false
  | PDict items =>
      (fix go (l : list (string * pyval)) : bool :=
         match l with
         | [] => true
         | kv :: rest => nan_free (snd kv) && go rest
         end) items
  | PDatum _ value type => nan_free value && nan_free type
  | _ => true
  end.

(** ** The wire messages *)

(** Modelled from the spec: the generated [protos] classes are not among
    the sources.  [RpcHttp] nests [method], [url], the [headers], [params]
    and [query] maps and [rawBody], and for a response [status_code],
    [enable_content_negotiation] and [body]. *)
Record RpcHttp_ (T : Type) : Type := {
  method : string;
  url : string;
  headers : gmap string string;
  body : T;
  params : gmap string string;
  status_code : string;
  query : gmap string string;
  enable_content_negotiation : bool;
  rawBody : T
}.

Arguments method {T} _.
Arguments url {T} _.
Arguments headers {T} _.
Arguments body {T} _.
Arguments params {T} _.
Arguments status_code {T} _.
Arguments query {T} _.
Arguments enable_content_negotiation {T} _.
Arguments rawBody {T} _.

(** Modelled from the spec: the generated [protos.TypedData] is not among
    the sources.  It is a discriminated union with the fields [string],
    [json], [bytes] and [http] and further kinds ([stream], [int],
    [double]); [TD_unset] is the message with no field populated. *)
Inductive TypedData : Type :=
| TD_unset
| TD_string (s : string)
| TD_json (s : string)
| TD_bytes (b : list byte)
| TD_stream (b : list byte)
| TD_http (h : RpcHttp_ TypedData)
| TD_int (z : Z)
| TD_double (bits : Z).

Definition RpcHttp : Type := RpcHttp_ TypedData.

(** [td.WhichOneof('data')]: the name of the populated field, or [None]. *)
Definition WhichOneof (td : TypedData) : option string :=
  match td with
  | TD_unset => None
  | TD_string _ => Some "string"
  | TD_json _ => Some "json"
  | TD_bytes _ => Some "bytes"
  | TD_stream _ => Some "stream"
  | TD_http _ => Some "http"
  | TD_int _ => Some "int"
  | TD_double _ => Some "double"
  end.

(** The discriminant as the Python value the code formats. *)
Definition tag_val (tt : option string) : pyval :=
  match tt with
  | Some s => PStr s
  | None => PNone
  end.

Definition field_error (field : string) (v : pyval) : exn :=
  TypeError ("bad argument type for field " +:+ field +:+ ": " +:+ type_name v).

Section FieldValues.

(** What the generated constructor does with a keyword value that is not
    of the field's own type (a conversion of its own, a message without
    the field for [None], or a [TypeError]): the generated classes are not
    among the sources, and nothing is assumed about it. *)
Variable convert_field : string -> pyval -> result TypedData.

(** Modelled from the spec: the constructor [protos.TypedData(string=v)],
    not among the sources; the wire string field is the value. *)
Definition TypedData_string (v : pyval) : result TypedData :=
  match v with
  | PStr s => Ok (TD_string s)
  | _ => convert_field "string" v
  end.

(** Modelled from the spec: the constructor [protos.TypedData(bytes=v)],
    not among the sources; the wire bytes field is the value. *)
Definition TypedData_bytes (v : pyval) : result TypedData :=
  match v with
  | PBytes b => Ok (TD_bytes b)
  | _ => convert_field "bytes" v
  end.

(** Modelled from the spec: the constructor [protos.TypedData(json=v)],
    not among the sources; the wire json field is the value. *)
Definition TypedData_json (v : pyval) : result TypedData :=
  match v with
  | PStr s => Ok (TD_json s)
  | _ => convert_field "json" v
  end.

End FieldValues.

(** The items of a [map<string,string>] keyword argument. *)
Fixpoint string_items (items : list (string * pyval)) : result (list (string * string)) :=
  match items with
  | [] => Ok []
  | (k, PStr s) :: rest =>
      let* rest' := string_items rest in Ok ((k, s) :: rest')
  | (_, v) :: _ => Raise (field_error "headers" v)
  end.

(** Modelled from the spec: the constructor [protos.RpcHttp(status_code=..,
    headers=.., enable_content_negotiation=.., body=..)], not among the
    sources; the fields not given keep their defaults. *)
Definition RpcHttp_response (sc : pyval) (hdrs : list (string * pyval))
    (negotiation : bool) (b : TypedData) : result RpcHttp :=
  match sc with
  | PStr code =>
      let* hs := string_items hdrs in
      Ok {| method := EmptyString; url := EmptyString;
            headers := list_to_map hs; body := b;
            params := ∅; status_code := code; query := ∅;
            enable_content_negotiation := negotiation;
            rawBody := TD_unset |}
  | _ => Raise (field_error "status_code" sc)
  end.

(** ** Attribute and item access *)

(** [v[k]] for a text key. *)
Definition getitem (v : pyval) (k : string) : result pyval :=
  match v with
  | PDict items =>
      match assoc k items with
      | Some x => Ok x
      | None => Raise (KeyError k)
      end
  | PStr _ => Raise (TypeError "string indices must be integers")
  | PBytes _ => Raise (TypeError "byte indices must be integers or slices, not str")
  | _ => Raise (TypeError ("'" +:+ type_name v +:+ "' object is not subscriptable"))
  end.

Definition no_attribute (v : pyval) (attr : string) : exn :=
  AttributeError ("'" +:+ type_name v +:+ "' object has no attribute '" +:+ attr +:+ "'").

(** [v.value] *)
Definition getattr_value (v : pyval) : result pyval :=
  match v with
  | PDatum _ value _ => Ok value
  | _ => Raise (no_attribute v "value")
  end.

(** [v.items()] *)
Definition py_items (v : pyval) : result (list (string * pyval)) :=
  match v with
  | PDict items => Ok items
  | _ => Raise (no_attribute v "items")
  end.

(** [{k: v.value for k, v in items}] *)
Fixpoint unwrap_values (items : list (string * pyval)) : result (list (string * pyval)) :=
  match items with
  | [] => Ok []
  | (k, v) :: rest =>
      let* x := getattr_value v in
      let* rest' := unwrap_values rest in
      Ok ((k, x) :: rest')
  end.

(** ** Names of the module

    A name that is not local to a function is looked up among the names the
    module binds at its top level (lines 1-8 and the [class] and [def]
    statements), each bound to a module, a class or a function; the builtins
    bind neither [headers] nor [body]. *)

Inductive global_obj : Type :=
| GModule (name : string)
| GClass (name : string)
| GFunction (name : string).

Definition module_globals : list (string * global_obj) :=
  [ ("collections", GModule "collections");
    ("sys", GModule "sys");
    ("typing", GModule "typing");
    ("protos", GModule "protos");
    ("typing_inspect", GModule "typing_inspect");
    ("generic", GModule "generic");
    ("Datum", GClass "Datum");
    ("get_binding_registry", GFunction "get_binding_registry");
    ("is_iterable_type_annotation", GFunction "is_iterable_type_annotation");
    ("get_binding", GFunction "get_binding");
    ("is_trigger_binding", GFunction "is_trigger_binding");
    ("check_input_type_annotation", GFunction "check_input_type_annotation");
    ("check_output_type_annotation", GFunction "check_output_type_annotation");
    ("from_incoming_proto", GFunction "from_incoming_proto");
    ("to_outgoing_proto", GFunction "to_outgoing_proto") ].

Definition load_name (x : string) : result global_obj :=
  match assoc x module_globals with
  | Some g => Ok g
  | None => Raise (NameError x)
  end.

Definition global_no_attribute (g : global_obj) (attr : string) : exn :=
  match g with
  | GModule name =>
      AttributeError ("module '" +:+ name +:+ "' has no attribute '" +:+ attr +:+ "'")
  | GClass name =>
      AttributeError ("type object '" +:+ name +:+ "' has no attribute '" +:+ attr +:+ "'")
  | GFunction _ =>
      AttributeError ("'function' object has no attribute '" +:+ attr +:+ "'")
  end.

(** [g.items()] on a module, class or function. *)
Definition global_items (g : global_obj) : result (list (string * pyval)) :=
  Raise (global_no_attribute g "items").

(** [g.as_proto()] on a module, class or function: only the class [Datum]
    has the attribute, and there the call lacks [self]. *)
Definition global_as_proto (g : global_obj) : result TypedData :=
  match g with
  | GClass "Datum" =>
      Raise (TypeError "as_proto() missing 1 required positional argument: 'self'")
  | _ => Raise (global_no_attribute g "as_proto")
  end.

(** ** The interpreter's [repr] and [hash]

    [repr] and the hashes of the builtin values are the interpreter's own;
    the development holds for any choice of them. *)

Section Interpreter.

(** The generated constructors' handling of other values; see
    [TypedData_string]. *)
Variable convert_field : string -> pyval -> result TypedData.

Variable py_repr : pyval -> string.

Variable hash_none : Z.
Variable hash_int : Z -> Z.
Variable hash_float : pyfloat -> Z.
Variable hash_str : string -> Z.
Variable hash_bytes : list byte -> Z.
Variable hash_class : dclass -> Z.
Variable hash_tuple : list Z -> Z.

(** *** [Datum.__hash__] (lines 22-23) and [hash] *)

(** [hash((type(self), (self.value, self.type)))]; [hashv] is [hash] on the
    two fields, and a [dict] is unhashable. *)
Definition Datum__hash__ (hashv : pyval -> result Z)
    (cls : dclass) (value type : pyval) : result Z :=
  let hc := hash_class cls in
  let* hv := hashv value in
  let* ht := hashv type in
  Ok (hash_tuple [hc; hash_tuple [hv; ht]]).

Fixpoint py_hash (v : pyval) : result Z :=
  match v with
  | PNone => Ok hash_none
  | PInt z => Ok (hash_int z)
  | PFloat f => Ok (hash_float f)
  | PStr s => Ok (hash_str s)
  | PBytes b => Ok (hash_bytes b)
  | PDict _ => Raise (TypeError "unhashable type: 'dict'")
  | PDatum cls value type => Datum__hash__ py_hash cls value type
  end.

(** *** [Datum.as_proto] (lines 31-48) *)

Definition as_proto (self : pyval) : result TypedData :=
  match self with
  | PDatum _ value type =>
      if py_eq type (PStr "string") then TypedData_string convert_field value
      else if py_eq type (PStr "bytes") then TypedData_bytes convert_field value
      else if py_eq type (PStr "json") then TypedData_json convert_field value
      else if py_eq type (PStr "http") then
        let* sc := getitem value "status_code" in
        let* code := getattr_value sc in
        let* headers := load_name "headers" in
        let* items := global_items headers in
        let* hdrs := unwrap_values items in
        let* body := load_name "body" in
        let* body_proto := global_as_proto body in
        let* http := RpcHttp_response code hdrs false body_proto in
        Ok (TD_http http)
      else
        Raise (NotImplementedError ("unexpected Datum type: " +:+ py_repr type))
  | _ => Raise (no_attribute self "as_proto")
  end.

(** The http branch as the specification words it: [headers] and [body]
    are read from the Datum's own [value] mapping. *)
Fixpoint as_proto_spec (self : pyval) : result TypedData :=
  match self with
  | PDatum _ value type =>
      if py_eq type (PStr "string") then TypedData_string convert_field value
      else if py_eq type (PStr "bytes") then TypedData_bytes convert_field value
      else if py_eq type (PStr "json") then TypedData_json convert_field value
      else if py_eq type (PStr "http") then
        let* sc := getitem value "status_code" in
        let* code := getattr_value sc in
        let* headers := getitem value "headers" in
        let* items := py_items headers in
        let* hdrs := unwrap_values items in
        let* body_proto :=
          match value with
          | PDict kvs =>
              (fix find (l : list (string * pyval)) : result TypedData :=
                 match l with
                 | [] => Raise (KeyError "body")
                 | kv :: rest =>
                     if String.eqb "body" (fst kv) then as_proto_spec (snd kv)
                     else find rest
                 end) kvs
          | _ => Raise (TypeError "not subscriptable")
          end in
        let* http := RpcHttp_response code hdrs false body_proto in
        Ok (TD_http http)
      else
        Raise (NotImplementedError ("unexpected Datum type: " +:+ py_repr type))
  | _ => Raise (no_attribute self "as_proto")
  end.

(** *** [Datum.from_typed_data] (lines 50-80) *)

(** [{k: Datum(v, 'string') for k, v in m.items()}] *)
Definition string_datums (m : gmap string string) : pyval :=
  PDict (map (fun kv => (fst kv, PDatum Datum (PStr (snd kv)) (PStr "string")))
             (map_to_list m)).

Definition unsupported_kind (tt : option string) : exn :=
  NotImplementedError ("unsupported TypeData kind: " +:+ py_repr (tag_val tt)).

Fixpoint from_typed_data (cls : dclass) (td : TypedData) : result pyval :=
  let tt := WhichOneof td in
  match td with
  | TD_http http =>
      let* b := from_typed_data Datum (rawBody http) in
      let val := PDict [ ("method", PDatum Datum (PStr (method http)) (PStr "string"));
                         ("url", PDatum Datum (PStr (url http)) (PStr "string"));
                         ("headers", string_datums (headers http));
                         ("body", b);
                         ("params", string_datums (params http));
                         ("query", string_datums (query http)) ] in
      Ok (PDatum cls val (tag_val tt))
  | TD_string s => Ok (PDatum cls (PStr s) (tag_val tt))
  | TD_bytes b => Ok (PDatum cls (PBytes b) (tag_val tt))
  | TD_json s => Ok (PDatum cls (PStr s) (tag_val tt))
  | _ => Raise (unsupported_kind tt)
  end.

(** *** The round trip of section 8 *)

(** The shape a scalar wire kind requires of the value. *)
Definition kind_shape (k : string) (v : pyval) : bool :=
  match v with
  | PStr _ => String.eqb k "string" || String.eqb k "json"
  | PBytes _ => String.eqb k "bytes"
  | _ => false
  end.

(** [Datum.from_typed_data(self.as_proto()) == self] *)
Definition round_trip (self : pyval) : result bool :=
  let* td := as_proto self in
  let* d := from_typed_data Datum td in
  Ok (py_eq d self).

End Interpreter.

(** *** [Datum.__repr__] (lines 25-29) *)

(** [s[:n]] *)
Fixpoint str_take (n : nat) (s : string) : string :=
  match n, s with
  | S n', String a s' => String a (str_take n' s')
  | _, _ => EmptyString
  end.

Section Rendering.

(** [repr(self.value)] and the text [format] gives for [self.type] are the
    interpreter's. *)
Variable py_repr : pyval -> string.
Variable py_str : pyval -> string.

Definition Datum__repr__ (value type : pyval) : string :=
  let val_repr := py_repr value in
  let val_repr :=
    if Nat.ltb 10 (String.length val_repr)
    then str_take 10 val_repr +:+ "..."
    else val_repr in
  "<Datum " +:+ py_str type +:+ " " +:+ val_repr +:+ ">".

End Rendering.

(** *** Messages by their populated field *)

(** The message whose field decides what [from_typed_data] does: the
    [rawBody] of an http message, followed inwards. *)
Fixpoint payload_of (td : TypedData) : TypedData :=
  match td with
  | TD_http http => payload_of (rawBody http)
  | _ => td
  end.

(** The populated field is [string], [bytes] or [json]. *)
Definition scalar_message (td : TypedData) : bool :=
  match td with
  | TD_string _ | TD_bytes _ | TD_json _ => true
  | _ => false
  end.

Definition http_message (td : TypedData) : bool :=
  match td with
  | TD_http _ => true
  | _ => false
  end.

(** [Datum(v, 'string')] *)
Definition string_datum (v : string) : pyval := PDatum Datum (PStr v) (PStr "string").

(** ** Type annotations and candidate types

    The objects handed to the matcher: a class, a parameterized generic
    such as [List[int]] (its origin class and its type arguments), a
    [Union], a tuple of objects, a type variable, or any other value.
    Classes are those of the running program; [cls] is their type. *)

Inductive pyobj (cls : Type) : Type :=
| OClass (c : cls)
| OGeneric (origin : cls) (args : list (pyobj cls))
| OUnion (members : list (pyobj cls))
| OTuple (elems : list (pyobj cls))
| OTypeVar (name : string)
| OValue (v : pyval).

Arguments OClass {cls} c.
Arguments OGeneric {cls} origin args.
Arguments OUnion {cls} members.
Arguments OTuple {cls} elems.
Arguments OTypeVar {cls} name.
Arguments OValue {cls} v.

(** [any(...)] over a generator: stops at the first true element, and at
    the first element whose evaluation raises. *)
Fixpoint py_any {A : Type} (f : A -> result bool) (l : list A) : result bool :=
  match l with
  | [] => Ok false
  | x :: rest =>
      match f x with
      | Ok true => Ok true
      | Ok false => py_any f rest
      | Raise e => Raise e
      end
  end.

(** ** Bindings

    A binding is an external capability; [str] is what formatting the
    binding object in a message gives. *)

Module Binding.

Record t (cls : Type) : Type := {
  str : string;
  decode : pyval -> list (string * pyval) -> result pyval;
  encode : pyval -> option (pyobj cls) -> result pyval;
  check_input_type_annotation : pyobj cls -> Z -> result bool;
  check_output_type_annotation : pyobj cls -> result bool;
  has_trigger_support : result bool
}.

Arguments str {cls} _.
Arguments decode {cls} _ _ _.
Arguments encode {cls} _ _ _.
Arguments check_input_type_annotation {cls} _ _ _.
Arguments check_output_type_annotation {cls} _ _.
Arguments has_trigger_support {cls} _.

End Binding.

(** The registry maps binding names to bindings; the provider module
    [azure.functions], when loaded, answers [get_registry()] with the
    registry or with [None]. *)
Record PyModule (cls : Type) : Type := {
  get_registry : option (gmap string (Binding.t cls))
}.

Arguments get_registry {cls} _.

Section Worker.

Context {cls : Type}.

(** [issubclass] between two classes, and [collections.abc.Iterable]. *)
Variable subclass : cls -> cls -> bool.
Variable Iterable : cls.

(** [issubclass(c, Union[...])]: the interpreter's class check of a
    [Union] (it raises [TypeError] before Python 3.10 and tests the
    members from 3.10 on). *)
Variable issubclass_union : cls -> list (pyobj cls) -> result bool.

(** [typing_inspect] on a class: whether it counts as a generic type (it
    derives from [typing.Generic]) and what [get_origin] gives for it
    ([None], or a class, depending on the class and on the version of
    [typing]). *)
Variable generic_class : cls -> bool.
Variable class_origin : cls -> pyobj cls.

(** The generated constructors' handling of other values; see
    [TypedData_string]. *)
Variable convert_field : string -> pyval -> result TypedData.

Variable py_repr : pyval -> string.

(** [sys.modules], and [generic.GenericBinding]. *)
Variable sys_modules : gmap string (PyModule cls).
Variable GenericBinding : Binding.t cls.

(** *** The builtins [isinstance] and [issubclass] *)

Definition isinstance_type (o : pyobj cls) : bool :=
  match o with
  | OClass _ => true
  | _ => false
  end.

Definition isinstance_tuple (o : pyobj cls) : bool :=
  match o with
  | OTuple _ => true
  | _ => false
  end.

Definition not_a_class : exn :=
  TypeError "issubclass() arg 2 must be a class or tuple of classes".

Fixpoint issubclass_of (c : cls) (y : pyobj cls) : result bool :=
  match y with
  | OClass d => Ok (subclass c d)
  | OTuple elems =>
      (fix any_of (l : list (pyobj cls)) : result bool :=
         match l with
         | [] => Ok false
         | t :: rest =>
             match issubclass_of c t with
             | Ok false => any_of rest
             | r => r
             end
         end) elems
  | OUnion members => issubclass_union c members
  | OGeneric _ _ =>
      Raise (TypeError "Subscripted generics cannot be used with class and instance checks")
  | _ => Raise not_a_class
  end.

Definition issubclass (x y : pyobj cls) : result bool :=
  match x with
  | OClass c => issubclass_of c y
  | _ => Raise (TypeError "issubclass() arg 1 must be a class")
  end.

(** *** [typing_inspect] *)

(** Modelled from the spec: [typing_inspect.is_generic_type] is not among
    the sources; it holds of a parameterized generic type, and of the
    classes that are generic. *)
Definition is_generic_type (tp : pyobj cls) : bool :=
  match tp with
  | OGeneric _ _ => true
  | OClass c => generic_class c
  | _ => false
  end.

(** Modelled from the spec: [typing_inspect.get_origin] is not among the
    sources; it gives the origin type of a parameterized generic, its own
    answer for a class, and [None] where there is no origin. *)
Definition get_origin (tp : pyobj cls) : pyobj cls :=
  match tp with
  | OGeneric origin _ => OClass origin
  | OClass c => class_origin c
  | _ => OValue PNone
  end.

(** Modelled from the spec: [typing_inspect.get_args] is not among the
    sources; it gives the type arguments the annotation carries. *)
Definition get_args (tp : pyobj cls) : list (pyobj cls) :=
  match tp with
  | OGeneric _ args => args
  | OUnion members => members
  | _ => []
  end.

(** *** [is_iterable_type_annotation] (lines 91-110) *)


(** [for t in pytype for arg in args] *)
Definition candidate_pairs (ts args : list (pyobj cls)) : list (pyobj cls * pyobj cls) :=
  flat_map (fun t => map (fun arg => (t, arg)) args) ts.

(** [isinstance(t, type) and issubclass(t, arg)] *)
Definition compatible (t arg : pyobj cls) : result bool :=
  if isinstance_type t then issubclass t arg else Ok false.

Definition is_iterable_type_annotation (annotation pytype : pyobj cls) : result bool :=
  let* is_iterable_anno :=
    if is_generic_type annotation
    then issubclass (get_origin annotation) (OClass Iterable)
    else Ok false in
  if negb is_iterable_anno then Ok false
  else
    let args := get_args annotation in
    match args with
    | [] => Ok false
    | _ :: _ =>
        match pytype with
        | OTuple ts =>
            py_any (fun p => compatible (fst p) (snd p)) (candidate_pairs ts args)
        | _ => py_any (fun arg => compatible pytype arg) args
        end
    end.

(** *** The registry lookup (lines 83-88 and 113-138) *)

Definition get_binding_registry : option (gmap string (Binding.t cls)) :=
  match sys_modules !! "azure.functions" with
  | Some func => get_registry func
  | None => None
  end.

Definition get_binding (bind_name : string) : Binding.t cls :=
  let binding :=
    match get_binding_registry with
    | Some registry => registry !! bind_name
    | None => None
    end in
  match binding with
  | Some b => b
  | None => GenericBinding
  end.

(** [sys.modules] once the provider module is loaded with the registry
    [registry]. *)
Definition with_registry (registry : gmap string (Binding.t cls))
    : gmap string (PyModule cls) :=
  <["azure.functions" := {| get_registry := Some registry |}]> sys_modules.

Definition is_trigger_binding (bind_name : string) : result bool :=
  Binding.has_trigger_support (get_binding bind_name).

Definition check_input_type_annotation (binding : string) (pytype : pyobj cls)
    (datatype : Z) : result bool :=
  Binding.check_input_type_annotation (get_binding binding) pytype datatype.

Definition check_output_type_annotation (binding : string) (pytype : pyobj cls)
    : result bool :=
  Binding.check_output_type_annotation (get_binding binding) pytype.

(** *** The facade (lines 141-179) *)

(** [{k: Datum.from_typed_data(v) for k, v in items}] *)
Fixpoint metadata_datums (items : list (string * TypedData)) : result (list (string * pyval)) :=
  match items with
  | [] => Ok []
  | (k, v) :: rest =>
      let* d := from_typed_data py_repr Datum v in
      let* rest' := metadata_datums rest in
      Ok ((k, d) :: rest')
  end.

(** [trigger_metadata.items()]; the argument may be [None]. *)
Definition metadata_items (trigger_metadata : option (list (string * TypedData)))
    : result (list (string * TypedData)) :=
  match trigger_metadata with
  | Some d => Ok d
  | None => Raise (AttributeError "'NoneType' object has no attribute 'items'")
  end.

Definition decode_error (dt : option string) (binding : Binding.t cls) : exn :=
  TypeError ("unable to decode incoming TypedData: " +:+
             "unsupported combination of TypedData field " +:+
             py_repr (tag_val dt) +:+
             " and expected binding type " +:+ Binding.str binding).

Definition from_incoming_proto (binding : string) (val : TypedData)
    (pytype : option (pyobj cls))
    (trigger_metadata : option (list (string * TypedData))) : result pyval :=
  let binding := get_binding binding in
  let* datum := from_typed_data py_repr Datum val in
  let* items := metadata_items trigger_metadata in
  let* metadata := metadata_datums items in
  match Binding.decode binding datum metadata with
  | Raise (NotImplementedError _) =>
      let dt := WhichOneof val in
      Raise (decode_error dt binding)
  | r => r
  end.

Definition encode_error (binding : Binding.t cls) (obj : pyval) : exn :=
  TypeError ("unable to encode outgoing TypedData: " +:+
             "unsupported type " +:+ dquote +:+ Binding.str binding +:+ dquote +:+
             " for " +:+
             "Python type " +:+ dquote +:+ type_name obj +:+ dquote).

Definition to_outgoing_proto (binding : string) (obj : pyval)
    (pytype : option (pyobj cls)) : result TypedData :=
  let binding := get_binding binding in
  match Binding.encode binding obj pytype with
  | Raise (NotImplementedError _) => Raise (encode_error binding obj)
  | Raise e => Raise e
  | Ok datum => as_proto convert_field py_repr datum
  end.

End Worker.

(** ** A small program to run the definitions on *)

Module Sample.

Inductive klass : Type :=
| k_object | k_int | k_bool | k_str | k_list | k_dict | k_Iterable | k_Box.

(** [issubclass] on these classes: [bool] derives from [int], everything
    from [object], and [list], [dict] and [str] are iterable. *)
Definition subclass (c d : klass) : bool :=
  match c, d with
  | _, k_object => true
  | k_int, k_int | k_bool, k_bool | k_bool, k_int | k_str, k_str => true
  | k_list, k_list | k_dict, k_dict | k_Iterable, k_Iterable | k_Box, k_Box => true
  | k_list, k_Iterable | k_dict, k_Iterable | k_str, k_Iterable => true
  | _, _ => false
  end.

(** [class Box(Generic[T])] is the one generic class; [get_origin] of a
    class is [None]. *)
Definition generic_class (c : klass) : bool :=
  match c with
  | k_Box => true
  | _ => false
  end.

Definition class_origin (c : klass) : pyobj klass := OValue PNone.

(** A constructor that leaves the field out for [None] and rejects every
    other value that is not of the field's type. *)
Definition convert_field (field : string) (v : pyval) : result TypedData :=
  match v with
  | PNone => Ok TD_unset
  | _ => Raise (field_error field v)
  end.

(** The class check of a [Union] before Python 3.10. *)
Definition union_check (c : klass) (members : list (pyobj klass)) : result bool :=
  Raise (TypeError "Subscripted generics cannot be used with class and instance checks").

(** The class check of a [Union] from Python 3.10 on: some member is a
    class the candidate derives from. *)
Definition union_check_members (c : klass) (members : list (pyobj klass)) : result bool :=
  py_any (fun m => match m with
                   | OClass d => Ok (subclass c d)
                   | _ => Raise (TypeError "issubclass() arg 2 must be a class")
                   end) members.

(** [repr] of [None] and of text without quotes or escapes. *)
Definition repr (v : pyval) : string :=
  match v with
  | PNone => "None"
  | PStr s => "'" +:+ s +:+ "'"
  | _ => "<object>"
  end.

(** [str] of text is the text itself. *)
Definition text_of (v : pyval) : string :=
  match v with
  | PStr s => s
  | _ => repr v
  end.

Definition hash_tuple (hs : list Z) : Z :=
  fold_left (fun acc h => (31 * acc + h)%Z) hs 7%Z.

Definition hash_text (s : string) : Z := Z.of_nat (String.length s).

Definition hash_class (c : dclass) : Z := Z.of_nat (length c).

(** A binding that takes text only. *)
Definition text_binding : Binding.t klass :=
  {| Binding.str := "<class 'TextBinding'>";
     Binding.decode := fun datum _ =>
       match datum with
       | PDatum _ (PStr s) (PStr "string") => Ok (PStr s)
       | _ => Raise (NotImplementedError EmptyString)
       end;
     Binding.encode := fun obj _ =>
       match obj with
       | PStr s => Ok (PDatum Datum (PStr s) (PStr "string"))
       | _ => Raise (NotImplementedError EmptyString)
       end;
     Binding.check_input_type_annotation := fun _ _ => Ok true;
     Binding.check_output_type_annotation := fun _ => Ok true;
     Binding.has_trigger_support := Ok false |}.

(** The fallback passes a Datum through. *)
Definition generic_binding : Binding.t klass :=
  {| Binding.str := "<class 'GenericBinding'>";
     Binding.decode := fun datum _ => Ok datum;
     Binding.encode := fun obj _ => Ok obj;
     Binding.check_input_type_annotation := fun _ _ => Ok true;
     Binding.check_output_type_annotation := fun _ => Ok true;
     Binding.has_trigger_support := Ok false |}.

Definition registry : gmap string (Binding.t klass) :=
  {[ "text" := text_binding ]}.

Definition loaded : gmap string (PyModule klass) :=
  {[ "azure.functions" := {| get_registry := Some registry |} ]}.

(** A response Datum of kind [http]. *)
Definition http_response : pyval :=
  PDatum Datum
    (PDict [ ("status_code", PDatum Datum (PStr "200") (PStr "string"));
             ("headers", PDict [ ("Content-Type",
                                  PDatum Datum (PStr "text/plain") (PStr "string")) ]);
             ("body", PDatum Datum (PStr "ok") (PStr "string")) ])
    (PStr "http").

(** The request [GET /x] with an empty text body, on the wire. *)
Definition http_request : TypedData :=
  TD_http {| method := "GET"; url := "/x"; headers := ∅;
             body := TD_unset; params := ∅; status_code := EmptyString;
             query := ∅; enable_content_negotiation := false;
             rawBody := TD_string EmptyString |}.

(** [List[List[int]]] and [Dict[List[int], int]] *)
Definition list_of_lists : pyobj klass :=
  OGeneric k_list [OGeneric k_list [OClass k_int]].


End Sample.

(** ** Properties *)

(** *** Classes of the [Datum] family *)

Lemma dclass_eqb_eq (c d : dclass) : dclass_eqb c d = true <-> c = d.
Proof.
  revert d. induction c as [|x c IH]; intros [|y d]; simpl; split; try easy.
  - intros H. apply andb_true_iff in H as [Hx Hc].
    apply String.eqb_eq in Hx. apply IH in Hc. congruence.
  - intros H. injection H as -> ->. rewrite String.eqb_refl. simpl. now apply IH.
Qed.

Lemma is_prefix_refl (c : dclass) : is_prefix c c = true.
Proof.
  induction c as [|x c IH]; simpl; [reflexivity|].
  now rewrite String.eqb_refl.
Qed.

Lemma is_prefix_antisym (c d : dclass) :
  is_prefix c d = true -> is_prefix d c = true -> c = d.
Proof.
  revert d. induction c as [|x c IH]; intros [|y d]; simpl; try easy.
  intros H1 H2.
  apply andb_true_iff in H1 as [Hx Hc]. apply andb_true_iff in H2 as [_ Hd].
  apply String.eqb_eq in Hx. f_equal; [assumption|]. now apply IH.
Qed.

Lemma bytes_eqb_eq (x y : list byte) : bytes_eqb x y = true <-> x = y.
Proof.
  revert y. induction x as [|a x IH]; intros [|b y]; simpl; split; try easy.
  - intros H. apply andb_true_iff in H as [Ha Hx].
    apply Byte.byte_dec_bl in Ha. apply IH in Hx. congruence.
  - intros H. injection H as -> ->. apply andb_true_iff. split.
    + now apply Byte.byte_dec_lb.
    + now apply IH.
Qed.

(** *** The [==] operator *)

Lemma float_eqb_sym (x y : pyfloat) : float_eqb x y = float_eqb y x.
Proof.
  destruct x as [|s|m e], y as [|s'|m' e']; try reflexivity; simpl.
  - now destruct s, s'.
  - rewrite (Z.min_comm e' e). apply Z.eqb_sym.
Qed.

Lemma float_eqb_refl (x : pyfloat) : x <> FNan -> float_eqb x x = true.
Proof.
  destruct x as [|s|m e]; simpl; intros H.
  - now destruct H.
  - now destruct s.
  - apply Z.eqb_refl.
Qed.

Lemma forallb_ext_in {A : Type} (f g : A -> bool) (l : list A) :
  (forall x, In x l -> f x = g x) -> forallb f l = forallb g l.
Proof.
  induction l as [|x l IH]; simpl; intros H; [reflexivity|].
  rewrite (H x) by now left. f_equal. apply IH. intros y Hy. apply H. now right.
Qed.

Lemma depth_dict_in (items : list (string * pyval)) (kv : string * pyval) :
  In kv items -> depth (snd kv) < depth (PDict items).
Proof.
  simpl. induction items as [|kv' items IH]; simpl; [easy|].
  intros [-> | Hin]; [lia|]. specialize (IH Hin). lia.
Qed.

(** The reflected method, tried first for a proper subclass on the right,
    always answers [False]. *)
Lemma Datum__eq___reflected (eqv : pyval -> pyval -> bool)
    (ca cb : dclass) (va ta vb tb : pyval) :
  negb (dclass_eqb ca cb) && issubclass_d cb ca = true ->
  Datum__eq__ eqv (PDatum cb vb tb) (PDatum ca va ta) = false.
Proof.
  intros H. apply andb_true_iff in H as [Hne Hsub].
  unfold Datum__eq__, isinstance_d, issubclass_d in *.
  destruct (is_prefix cb ca) eqn:Hrev; simpl; [|reflexivity].
  rewrite (is_prefix_antisym _ _ Hsub Hrev) in Hne.
  rewrite (proj2 (dclass_eqb_eq cb cb) eq_refl) in Hne. discriminate.
Qed.

(** Fuel beyond the nesting of the left operand changes nothing. *)
Lemma rich_eq_fuel (n m : nat) (a b : pyval) :
  depth a < n -> depth a < m -> rich_eq n a b = rich_eq m a b.
Proof.
  revert m a b. induction n as [|n IH]; intros m a b Hn Hm; [lia|].
  destruct m as [|m]; [lia|].
  destruct a as [| | | |xs|ca va ta|], b as [| | | |ys|cb vb tb|];
    try reflexivity.
  - simpl. unfold dict_eq. f_equal. apply forallb_ext_in. intros kv Hin.
    destruct (assoc (fst kv) ys); [|reflexivity].
    pose proof (depth_dict_in _ _ Hin). apply IH; lia.
  - simpl in Hn, Hm.
    assert (Hv : forall y, rich_eq n va y = rich_eq m va y) by (intros; apply IH; lia).
    assert (Ht : forall y, rich_eq n ta y = rich_eq m ta y) by (intros; apply IH; lia).
    cbn [rich_eq].
    destruct (negb (dclass_eqb ca cb) && issubclass_d cb ca) eqn:Hc.
    + now rewrite !Datum__eq___reflected.
    + unfold Datum__eq__. destruct (negb (isinstance_d (PDatum cb vb tb) ca));
        [reflexivity|]. now rewrite Hv, Ht.
Qed.

Lemma py_eq_fuel (n : nat) (a b : pyval) :
  depth a < n -> rich_eq n a b = py_eq a b.
Proof. intros H. unfold py_eq. apply rich_eq_fuel; lia. Qed.

(** [a == b] on two instances, in terms of [==] on their fields. *)
Lemma py_eq_Datum (ca cb : dclass) (va ta vb tb : pyval) :
  py_eq (PDatum ca va ta) (PDatum cb vb tb) =
  dclass_eqb ca cb && (py_eq va vb && py_eq ta tb).
Proof.
  unfold py_eq at 1. cbn [rich_eq].
  destruct (dclass_eqb ca cb) eqn:Hc; cbn [negb andb].
  - apply dclass_eqb_eq in Hc as ->.
    unfold Datum__eq__, isinstance_d, issubclass_d. rewrite is_prefix_refl.
    cbn [negb]. rewrite !py_eq_fuel; [reflexivity| |]; simpl; lia.
  - destruct (issubclass_d cb ca) eqn:Hs.
    + apply Datum__eq___reflected. now rewrite Hc, Hs.
    + unfold Datum__eq__, isinstance_d. now rewrite Hs.
Qed.

(** A value is [==] to a text exactly when it is that text. *)
Lemma py_eq_text (v : pyval) (s : string) :
  py_eq v (PStr s) = true <-> v = PStr s.
Proof.
  unfold py_eq. destruct v; simpl; split; try easy.
  - intros H. apply String.eqb_eq in H. now subst.
  - intros H. injection H as ->. apply String.eqb_refl.
Qed.

Lemma py_eq_text_neq (v : pyval) (s : string) :
  v <> PStr s -> py_eq v (PStr s) = false.
Proof.
  intros H. destruct (py_eq v (PStr s)) eqn:E; [|reflexivity].
  now apply py_eq_text in E.
Qed.

Lemma assoc_distinct {A : Type} (items : list (string * A)) (kv : string * A) :
  distinct (map fst items) = true -> In kv items ->
  assoc (fst kv) items = Some (snd kv).
Proof.
  induction items as [|[k v] items IH]; simpl; [easy|].
  intros Hd [<- | Hin]; simpl.
  - now rewrite String.eqb_refl.
  - apply andb_true_iff in Hd as [Hk Hd].
    destruct (String.eqb (fst kv) k) eqn:E; [|now apply IH].
    apply String.eqb_eq in E. subst k.
    apply negb_true_iff in Hk.
    assert (existsb (String.eqb (fst kv)) (map fst items) = true); [|congruence].
    apply existsb_exists. exists (fst kv). split.
    + now apply in_map.
    + apply String.eqb_refl.
Qed.

Lemma nan_free_dict_in (items : list (string * pyval)) (kv : string * pyval) :
  nan_free (PDict items) = true -> In kv items -> nan_free (snd kv) = true.
Proof.
  simpl. induction items as [|kv' items IH]; simpl; [easy|].
  intros H [-> | Hin]; apply andb_true_iff in H as [H1 H2]; [assumption|].
  now apply IH.
Qed.

Lemma wf_dict_in (items : list (string * pyval)) (kv : string * pyval) :
  wf_val (PDict items) = true -> In kv items -> wf_val (snd kv) = true.
Proof.
  simpl. intros H. apply andb_true_iff in H as [_ H]. revert H.
  induction items as [|kv' items IH]; simpl; [easy|].
  intros H [-> | Hin]; apply andb_true_iff in H as [H1 H2]; [assumption|].
  now apply IH.
Qed.

(** [==] is reflexive on well-formed values that hold no NaN. *)
Lemma rich_eq_refl (n : nat) (a : pyval) :
  depth a < n -> wf_val a = true -> nan_free a = true -> rich_eq n a a = true.
Proof.
  revert a. induction n as [|n IH]; intros a Hn Hwf Hnan; [lia|].
  destruct a as [| z | s | b |xs|c v t|f]; cbn [rich_eq].
  - reflexivity.
  - apply Z.eqb_refl.
  - apply String.eqb_refl.
  - now apply bytes_eqb_eq.
  - unfold dict_eq. rewrite Nat.eqb_refl. cbn [andb].
    apply forallb_forall. intros kv Hin.
    rewrite (assoc_distinct xs kv); [|simpl in Hwf; now apply andb_true_iff in Hwf|assumption].
    pose proof (depth_dict_in _ _ Hin).
    apply IH; [lia|now apply (wf_dict_in xs)|now apply (nan_free_dict_in xs)].
  - rewrite (proj2 (dclass_eqb_eq c c) eq_refl). cbn [negb andb].
    unfold Datum__eq__, isinstance_d, issubclass_d. rewrite is_prefix_refl. cbn [negb].
    simpl in Hn, Hwf, Hnan. apply andb_true_iff in Hwf as [Hv Ht].
    apply andb_true_iff in Hnan as [Nv Nt].
    rewrite !IH; [reflexivity| | | | | |]; try assumption; lia.
  - apply float_eqb_refl. intros ->. discriminate Hnan.
Qed.

Lemma py_eq_refl (a : pyval) :
  wf_val a = true -> nan_free a = true -> py_eq a a = true.
Proof. intros H N. apply rich_eq_refl; [lia|assumption|assumption]. Qed.

(** *** Equality and hash of [Datum] *)

Section Hashing.

Variable hash_none : Z.
Variable hash_int : Z -> Z.
Variable hash_float : pyfloat -> Z.
Variable hash_str : string -> Z.
Variable hash_bytes : list byte -> Z.
Variable hash_class : dclass -> Z.
Variable hash_tuple : list Z -> Z.

(** The interpreter's numeric hashes agree on numbers that compare equal. *)
Hypothesis hash_float_eq :
  forall x y, float_eqb x y = true -> hash_float x = hash_float y.
Hypothesis hash_int_float :
  forall z f, float_eqb (FFinite z 0) f = true -> hash_int z = hash_float f.

Abbreviation hash :=
  (py_hash hash_none hash_int hash_float hash_str hash_bytes hash_class hash_tuple).

(** Values that compare equal hash alike (or are unhashable alike). *)
Lemma rich_eq_hash (n : nat) (a b : pyval) :
  rich_eq n a b = true -> hash a = hash b.
Proof using hash_float_eq hash_int_float.
  revert a b. induction n as [|n IH]; intros a b H; [discriminate|].
  destruct a as [| x | s | x |xs|ca va ta|x], b as [| y | t | y |ys|cb vb tb|y];
    cbn in H; try discriminate; try reflexivity.
  - apply Z.eqb_eq in H. now subst.
  - cbn. f_equal. now apply hash_int_float.
  - apply String.eqb_eq in H. now subst.
  - apply bytes_eqb_eq in H. now subst.
  - unfold issubclass_d in H.
    destruct (negb (dclass_eqb ca cb) && is_prefix ca cb) eqn:Hc.
    + pose proof (Datum__eq___reflected (rich_eq n) ca cb va ta vb tb Hc) as R.
      unfold Datum__eq__, isinstance_d, issubclass_d in R. congruence.
    + destruct (is_prefix ca cb) eqn:Hs; cbn in H; [|discriminate].
      rewrite andb_true_r in Hc. apply negb_false_iff in Hc.
      apply dclass_eqb_eq in Hc as ->.
      apply andb_true_iff in H as [Hv Ht].
      cbn [py_hash]. unfold Datum__hash__.
      now rewrite (IH _ _ Hv), (IH _ _ Ht).
  - cbn. f_equal. symmetry. apply hash_int_float.
    rewrite float_eqb_sym. exact H.
  - cbn. f_equal. now apply hash_float_eq.
Qed.

(** C8 (as amended).  For Datums [a] and [b]: [a == b] holds exactly when
    both have the same class and their value and type fields are pairwise
    [==]; the hash of a Datum is the tuple hash of its class and of the
    pair of its field hashes; Datums that are [==] hash alike; and a Datum
    built again from the same value and type is [==] to the first exactly
    when the value and the type are each [==] to themselves, which holds
    of every well-formed payload without a NaN. *)
Theorem Datum_eq_hash_consistent (ca cb : dclass) (va ta vb tb : pyval) :
  (py_eq (PDatum ca va ta) (PDatum cb vb tb) = true <->
     ca = cb /\ py_eq va vb = true /\ py_eq ta tb = true) /\
  (forall hv ht, hash va = Ok hv -> hash ta = Ok ht ->
     hash (PDatum ca va ta) = Ok (hash_tuple [hash_class ca; hash_tuple [hv; ht]])) /\
  (py_eq (PDatum ca va ta) (PDatum cb vb tb) = true ->
     hash (PDatum ca va ta) = hash (PDatum cb vb tb)) /\
  (py_eq (PDatum ca va ta) (PDatum ca va ta) = true <->
     py_eq va va = true /\ py_eq ta ta = true) /\
  (wf_val va = true -> nan_free va = true ->
   wf_val ta = true -> nan_free ta = true ->
     py_eq (PDatum ca va ta) (PDatum ca va ta) = true).
Proof using hash_float_eq hash_int_float.
  split; [|split; [|split; [|split]]].
  - rewrite py_eq_Datum. rewrite !andb_true_iff. now rewrite dclass_eqb_eq.
  - intros hv ht Hv Ht. cbn [py_hash]. unfold Datum__hash__. now rewrite Hv, Ht.
  - unfold py_eq. apply rich_eq_hash.
  - rewrite py_eq_Datum. rewrite !andb_true_iff. rewrite dclass_eqb_eq. tauto.
  - intros Wv Nv Wt Nt. apply py_eq_refl; simpl; now rewrite ?Wv, ?Wt, ?Nv, ?Nt.
Qed.

End Hashing.

Lemma Datum_eq_hash_consistent_witness :
  py_eq (PDatum Datum (PInt 1) (PStr "int")) (PDatum Datum (PFloat (FFinite 2 (-1))) (PStr "int"))
    = true /\
  py_hash 0%Z (fun _ => 0%Z) (fun _ => 0%Z) Sample.hash_text
          (fun b => Z.of_nat (length b)) Sample.hash_class Sample.hash_tuple
          (PDatum Datum (PInt 1) (PStr "int"))
  = py_hash 0%Z (fun _ => 0%Z) (fun _ => 0%Z) Sample.hash_text
            (fun b => Z.of_nat (length b)) Sample.hash_class Sample.hash_tuple
            (PDatum Datum (PFloat (FFinite 2 (-1))) (PStr "int")).
Proof.
  assert (E : py_eq (PDatum Datum (PInt 1) (PStr "int"))
                    (PDatum Datum (PFloat (FFinite 2 (-1))) (PStr "int")) = true)
    by reflexivity.
  split; [exact E|].
  apply (Datum_eq_hash_consistent 0%Z (fun _ => 0%Z) (fun _ => 0%Z) Sample.hash_text
           (fun b => Z.of_nat (length b)) Sample.hash_class Sample.hash_tuple
           (fun _ _ _ => eq_refl) (fun _ _ _ => eq_refl)
           Datum Datum (PInt 1) (PStr "int") (PFloat (FFinite 2 (-1))) (PStr "int")).
  exact E.
Defined.

(** C8 as stated fails at a NaN payload: two Datums built from the same
    pair [(nan, 'double')] are not [==], because line 20 asks
    [self.value == other.value] and NaN is unequal to itself. *)
Lemma Datum_nan_not_equal :
  py_eq (PDatum Datum (PFloat FNan) (PStr "double"))
        (PDatum Datum (PFloat FNan) (PStr "double")) = false.
Proof. reflexivity. Qed.

(** *** Wire conversions of [Datum] *)

Section Conversions.

Variable convert_field : string -> pyval -> result TypedData.
Variable py_repr : pyval -> string.

Lemma as_proto_string (c : dclass) (s : string) :
  as_proto convert_field py_repr (PDatum c (PStr s) (PStr "string")) = Ok (TD_string s).
Proof. reflexivity. Qed.

Lemma as_proto_bytes (c : dclass) (b : list byte) :
  as_proto convert_field py_repr (PDatum c (PBytes b) (PStr "bytes")) = Ok (TD_bytes b).
Proof. reflexivity. Qed.

Lemma as_proto_json (c : dclass) (s : string) :
  as_proto convert_field py_repr (PDatum c (PStr s) (PStr "json")) = Ok (TD_json s).
Proof. reflexivity. Qed.

(** The type tag of a decoded Datum is the discriminant of the message. *)
Lemma from_typed_data_tag (cls : dclass) (td : TypedData) (d : pyval) :
  from_typed_data py_repr cls td = Ok d ->
  exists value, d = PDatum cls value (tag_val (WhichOneof td)).
Proof.
  destruct td; simpl; try discriminate.
  - intros [= <-]. now eexists.
  - intros [= <-]. now eexists.
  - intros [= <-]. now eexists.
  - destruct (from_typed_data py_repr Datum (rawBody h)); [|discriminate].
    intros [= <-]. now eexists.
Qed.

(** The http branch of [as_proto] never returns a message: after the
    status code it loads the names [headers] and [body], which the module
    does not bind. *)
Lemma as_proto_http_raises (c : dclass) (value : pyval) :
  returns (as_proto convert_field py_repr (PDatum c value (PStr "http"))) = false.
Proof.
  cbn. destruct (getitem value "status_code") as [sc|e]; [|reflexivity].
  now destruct (getattr_value sc).
Qed.

Lemma as_proto_http_name_error (c : dclass) (value sc code : pyval) :
  getitem value "status_code" = Ok sc -> getattr_value sc = Ok code ->
  as_proto convert_field py_repr (PDatum c value (PStr "http")) = Raise (NameError "headers").
Proof. intros H1 H2. cbn. now rewrite H1, H2. Qed.

(** C1 (as amended).  For the wire kinds [string], [bytes] and [json] and a
    value of the shape the kind requires, [as_proto] gives a message with
    that field populated, [from_typed_data] of it gives back the Datum,
    and the two compare equal. *)
Theorem round_trip_scalar_kinds (k : string) (v : pyval) :
  In k ["string"; "bytes"; "json"] ->
  kind_shape k v = true ->
  exists td : TypedData,
    as_proto convert_field py_repr (PDatum Datum v (PStr k)) = Ok td /\
    WhichOneof td = Some k /\
    from_typed_data py_repr Datum td = Ok (PDatum Datum v (PStr k)) /\
    round_trip convert_field py_repr (PDatum Datum v (PStr k)) = Ok true.
Proof.
  intros Hk Hshape.
  assert (Heq : forall x : list byte, bytes_eqb x x = true)
    by (intros x; now apply bytes_eqb_eq).
  simpl in Hk. destruct Hk as [<- | [<- | [<- | []]]];
    destruct v as [| z | s | b | items | c v' t' | f]; try discriminate Hshape.
  - exists (TD_string s). unfold round_trip. cbn.
    now rewrite String.eqb_refl.
  - exists (TD_bytes b). unfold round_trip. cbn. now rewrite Heq.
  - exists (TD_json s). unfold round_trip. cbn.
    now rewrite String.eqb_refl.
Qed.

(** C9.  A Datum whose type tag is none of [string], [bytes], [json] and
    [http] makes [as_proto] raise [NotImplementedError] with the [repr] of
    the tag in its message; a wire message whose populated field is none
    of the four (or that has none) makes [from_typed_data] raise
    [NotImplementedError] with the [repr] of the discriminant. *)
Theorem unsupported_kinds_raise :
  (forall (c : dclass) (value type : pyval),
     type <> PStr "string" -> type <> PStr "bytes" ->
     type <> PStr "json" -> type <> PStr "http" ->
     as_proto convert_field py_repr (PDatum c value type) =
       Raise (NotImplementedError ("unexpected Datum type: " +:+ py_repr type))) /\
  (forall (cls : dclass) (td : TypedData),
     WhichOneof td <> Some "string" -> WhichOneof td <> Some "bytes" ->
     WhichOneof td <> Some "json" -> WhichOneof td <> Some "http" ->
     from_typed_data py_repr cls td =
       Raise (NotImplementedError
                ("unsupported TypeData kind: " +:+ py_repr (tag_val (WhichOneof td))))).
Proof.
  split.
  - intros c value type Hs Hb Hj Hh. unfold as_proto.
    now rewrite !py_eq_text_neq.
  - intros cls td Hs Hb Hj Hh.
    destruct td; simpl in *; try reflexivity; congruence.
Qed.

End Conversions.

Lemma round_trip_scalar_kinds_witness :
  In "bytes" ["string"; "bytes"; "json"] /\
  kind_shape "bytes" (PBytes [x68; x69]) = true /\
  exists td : TypedData,
    as_proto Sample.convert_field Sample.repr (PDatum Datum (PBytes [x68; x69]) (PStr "bytes")) = Ok td /\
    WhichOneof td = Some "bytes" /\
    from_typed_data Sample.repr Datum td = Ok (PDatum Datum (PBytes [x68; x69]) (PStr "bytes")) /\
    round_trip Sample.convert_field Sample.repr (PDatum Datum (PBytes [x68; x69]) (PStr "bytes")) = Ok true.
Proof.
  assert (Hin : In "bytes" ["string"; "bytes"; "json"]) by (simpl; auto).
  split; [exact Hin|]. split; [reflexivity|].
  exact (round_trip_scalar_kinds Sample.convert_field Sample.repr "bytes" (PBytes [x68; x69]) Hin eq_refl).
Defined.

(** C1 as stated fails at the kind [http]: a response Datum does not come
    back from [as_proto] (the names [headers] and [body] are unbound), and
    the Datum decoded from a request has no [status_code] to encode. *)
Lemma round_trip_http_counterexample :
  round_trip Sample.convert_field Sample.repr Sample.http_response = Raise (NameError "headers") /\
  (let* d := from_typed_data Sample.repr Datum Sample.http_request in
   round_trip Sample.convert_field Sample.repr d) = Raise (KeyError "status_code").
Proof. split; reflexivity. Qed.

(** C2.  At a Datum of kind [http] whose value holds [status_code],
    [headers] and [body], the code loads the unbound name [headers] and
    raises [NameError]; reading them from the Datum's own value, as the
    specification requires, gives the response message. *)
Theorem as_proto_http_ignores_own_value
    (convert_field : string -> pyval -> result TypedData)
    (py_repr : pyval -> string) :
  as_proto convert_field py_repr Sample.http_response = Raise (NameError "headers") /\
  as_proto_spec convert_field py_repr Sample.http_response =
    Ok (TD_http {| method := EmptyString; url := EmptyString;
                   headers := list_to_map [("Content-Type", "text/plain")];
                   body := TD_string "ok";
                   params := ∅; status_code := "200"; query := ∅;
                   enable_content_negotiation := false;
                   rawBody := TD_unset |}).
Proof. split; reflexivity. Qed.

Lemma unsupported_kinds_raise_witness :
  as_proto Sample.convert_field Sample.repr (PDatum Datum (PInt 5) (PStr "int")) =
    Raise (NotImplementedError "unexpected Datum type: 'int'") /\
  from_typed_data Sample.repr Datum (TD_int 5) =
    Raise (NotImplementedError "unsupported TypeData kind: 'int'") /\
  from_typed_data Sample.repr Datum TD_unset =
    Raise (NotImplementedError "unsupported TypeData kind: None").
Proof.
  destruct (unsupported_kinds_raise Sample.convert_field Sample.repr) as [Ha Hf].
  split; [|split].
  - apply (Ha Datum (PInt 5) (PStr "int")); discriminate.
  - apply (Hf Datum (TD_int 5)); discriminate.
  - apply (Hf Datum TD_unset); discriminate.
Defined.

(** *** Text of the diagnostics *)

Lemma append_nil_r (s : string) : s +:+ EmptyString = s.
Proof.
  induction s as [|a s IH]; [reflexivity|].
  change (String a (s +:+ EmptyString) = String a s). now f_equal.
Qed.

Lemma append_assoc (s t u : string) : (s +:+ t) +:+ u = s +:+ (t +:+ u).
Proof.
  induction s as [|a s IH]; [reflexivity|].
  change (String a ((s +:+ t) +:+ u) = String a (s +:+ (t +:+ u))). now f_equal.
Qed.

Lemma contains_refl (s : string) : contains s s.
Proof. exists EmptyString, EmptyString. symmetry. apply (append_nil_r s). Qed.

Lemma contains_prefix (s post : string) : contains (s +:+ post) s.
Proof. now exists EmptyString, post. Qed.

Lemma contains_app_l (s t part : string) :
  contains t part -> contains (s +:+ t) part.
Proof.
  intros (pre & post & ->). exists (s +:+ pre), post.
  now rewrite append_assoc.
Qed.

Create HintDb text.
#[local] Hint Resolve contains_refl contains_prefix contains_app_l : text.

(** *** The type-annotation matcher *)

Section Matcher.

Context {cls : Type}.
Variable subclass : cls -> cls -> bool.
Variable Iterable : cls.
Variable issubclass_union : cls -> list (pyobj cls) -> result bool.
Variable generic_class : cls -> bool.
Variable class_origin : cls -> pyobj cls.

Abbreviation matches := (is_iterable_type_annotation subclass Iterable issubclass_union generic_class class_origin).
Abbreviation compat := (compatible subclass issubclass_union).









End Matcher.

Module MatcherExamples.
Import Sample.

Abbreviation matches_before_310 :=
  (is_iterable_type_annotation subclass k_Iterable union_check generic_class class_origin).
Abbreviation matches_from_310 :=
  (is_iterable_type_annotation subclass k_Iterable union_check_members generic_class class_origin).

(** The cases of section 8. *)
Example list_int_int :
  matches_before_310 (OGeneric k_list [OClass k_int]) (OClass k_int) = Ok true.
Proof. reflexivity. Qed.

Example list_int_str :
  matches_before_310 (OGeneric k_list [OClass k_int]) (OClass k_str) = Ok false.
Proof. reflexivity. Qed.

Example int_int :
  matches_before_310 (OClass k_int) (OClass k_int) = Ok false.
Proof. reflexivity. Qed.

(** [List[Union[int, str]]] against [(int,)]: the comparison is the
    interpreter's class check of the [Union]. *)
Example list_union_tuple :
  matches_before_310 (OGeneric k_list [OUnion [OClass k_int; OClass k_str]])
                     (OTuple [OClass k_int])
    = Raise (TypeError "Subscripted generics cannot be used with class and instance checks") /\
  matches_from_310 (OGeneric k_list [OUnion [OClass k_int; OClass k_str]])
                   (OTuple [OClass k_int])
    = Ok true.
Proof. split; reflexivity. Qed.

(** A true comparison ends the search before a later one can raise. *)
Example true_before_raise :
  matches_before_310 (OGeneric k_dict [OClass k_int; OGeneric k_list [OClass k_int]])
                     (OTuple [OClass k_bool])
    = Ok true.
Proof. reflexivity. Qed.

End MatcherExamples.





(** *** The registry lookup and the facade *)

Section Facade.

Context {cls : Type}.
Variable convert_field : string -> pyval -> result TypedData.
Variable py_repr : pyval -> string.
Variable sys_modules : gmap string (PyModule cls).
Variable GenericBinding : Binding.t cls.

Abbreviation registry_of := (get_binding_registry sys_modules).
Abbreviation resolve := (get_binding sys_modules GenericBinding).
Abbreviation incoming := (from_incoming_proto py_repr sys_modules GenericBinding).
Abbreviation outgoing := (to_outgoing_proto convert_field py_repr sys_modules GenericBinding).

(** The registry is absent when the provider module is not loaded, or
    answers [None]. *)
Lemma get_binding_registry_absent :
  registry_of = None <->
  sys_modules !! "azure.functions" = None \/
  exists func, sys_modules !! "azure.functions" = Some func /\ get_registry func = None.
Proof.
  unfold get_binding_registry.
  destruct (sys_modules !! "azure.functions") as [func|]; split.
  - intros H. right. now exists func.
  - intros [H | (f & [= <-] & H)]; [discriminate|assumption].
  - now left.
  - reflexivity.
Qed.

(** C5.  [get_binding] is total: with no registry, or with a registry that
    has no entry for the name, it gives the generic fallback; otherwise it
    gives the registry's entry. *)
Theorem get_binding_total (bind_name : string) :
  (registry_of = None -> resolve bind_name = GenericBinding) /\
  (forall registry : gmap string (Binding.t cls),
     registry_of = Some registry -> registry !! bind_name = None ->
     resolve bind_name = GenericBinding) /\
  (forall (registry : gmap string (Binding.t cls)) (b : Binding.t cls),
     registry_of = Some registry -> registry !! bind_name = Some b ->
     resolve bind_name = b) /\
  (exists b : Binding.t cls, resolve bind_name = b).
Proof.
  unfold get_binding. repeat split.
  - intros ->. reflexivity.
  - intros registry -> ->. reflexivity.
  - intros registry b -> ->. reflexivity.
  - now eexists.
Qed.

Lemma from_typed_data_populated (c : dclass) (val : TypedData) (datum : pyval) :
  from_typed_data py_repr c val = Ok datum ->
  exists tag, WhichOneof val = Some tag /\
              In tag ["string"; "bytes"; "json"; "http"].
Proof.
  destruct val; simpl; try discriminate; intros _; eexists; split;
    try reflexivity; simpl; auto.
Qed.

(** C4.  When the value and the metadata decode to Datums and the resolved
    binding's [decode] raises [NotImplementedError], the facade raises a
    [TypeError] whose message contains the [repr] of the populated field
    name of the wire value and the text of the binding; when [decode]
    returns, its result is the facade's. *)
Theorem from_incoming_proto_decode
    (binding : string) (val : TypedData) (pytype : option (pyobj cls))
    (items : list (string * TypedData)) (datum : pyval)
    (metadata : list (string * pyval)) :
  from_typed_data py_repr Datum val = Ok datum ->
  metadata_datums py_repr items = Ok metadata ->
  (forall msg,
     Binding.decode (resolve binding) datum metadata = Raise (NotImplementedError msg) ->
     exists tag m,
       WhichOneof val = Some tag /\
       incoming binding val pytype (Some items) = Raise (TypeError m) /\
       contains m (py_repr (PStr tag)) /\
       contains m (Binding.str (resolve binding))) /\
  (forall r,
     Binding.decode (resolve binding) datum metadata = Ok r ->
     incoming binding val pytype (Some items) = Ok r).
Proof.
  intros Hd Hm. unfold from_incoming_proto. rewrite Hd. cbn [metadata_items].
  rewrite Hm. split.
  - intros msg ->.
    destruct (from_typed_data_populated _ _ _ Hd) as (tag & Htag & _).
    exists tag. eexists. split; [exact Htag|]. split; [reflexivity|].
    rewrite Htag. cbn [tag_val]. split; auto 6 with text.
  - intros r ->. reflexivity.
Qed.

(** C7.  When the resolved binding's [encode] raises [NotImplementedError]
    the facade raises a [TypeError] whose message contains the text of the
    binding and the name of the value's type; when [encode] returns a
    Datum, the result is that Datum's [as_proto()]. *)
Theorem to_outgoing_proto_encode
    (binding : string) (obj : pyval) (pytype : option (pyobj cls)) :
  (forall msg,
     Binding.encode (resolve binding) obj pytype = Raise (NotImplementedError msg) ->
     exists m,
       outgoing binding obj pytype = Raise (TypeError m) /\
       contains m (Binding.str (resolve binding)) /\
       contains m (type_name obj)) /\
  (forall datum,
     Binding.encode (resolve binding) obj pytype = Ok datum ->
     outgoing binding obj pytype = as_proto convert_field py_repr datum).
Proof.
  unfold to_outgoing_proto. split.
  - intros msg ->. eexists. split; [reflexivity|]. split; auto 10 with text.
  - intros datum ->. reflexivity.
Qed.

(** C10.  When the wire value converts to a Datum, a call with [None] for
    [trigger_metadata] fails while the metadata map is built, with the
    [AttributeError] of [None.items()], whatever the binding is: its
    [decode] is not reached.  [None] is not taken for an empty mapping:
    with the empty mapping the same call hands the Datum and an empty
    metadata map to [decode]. *)
Theorem from_incoming_proto_none_metadata
    (binding : string) (val : TypedData) (pytype : option (pyobj cls))
    (datum : pyval) :
  from_typed_data py_repr Datum val = Ok datum ->
  incoming binding val pytype None =
    Raise (AttributeError "'NoneType' object has no attribute 'items'") /\
  incoming binding val pytype (Some []) =
    match Binding.decode (resolve binding) datum [] with
    | Raise (NotImplementedError _) =>
        Raise (decode_error py_repr (WhichOneof val) (resolve binding))
    | r => r
    end.
Proof.
  intros Hd. unfold from_incoming_proto. rewrite Hd. cbn [metadata_items].
  split; [reflexivity|]. cbn [metadata_datums]. reflexivity.
Qed.

End Facade.

Module FacadeExamples.
Import Sample.

Abbreviation incoming := (from_incoming_proto repr loaded generic_binding).
Abbreviation outgoing := (to_outgoing_proto convert_field repr loaded generic_binding).

Example lookup_registered : get_binding loaded generic_binding "text" = text_binding.
Proof. reflexivity. Qed.

Example lookup_unregistered :
  get_binding loaded generic_binding "queue" = generic_binding /\
  get_binding (∅ : gmap string (PyModule klass)) generic_binding "text" = generic_binding.
Proof. split; reflexivity. Qed.

Example decode_declined :
  incoming "text" (TD_bytes [x68; x69]) None (Some [])
  = Raise (TypeError ("unable to decode incoming TypedData: unsupported combination " +:+
                      "of TypedData field 'bytes' and expected binding type " +:+
                      "<class 'TextBinding'>")).
Proof. reflexivity. Qed.

Example decode_accepted :
  incoming "text" (TD_string "hello") None (Some [("id", TD_string "7")]) = Ok (PStr "hello").
Proof. reflexivity. Qed.

Example encode_declined :
  outgoing "text" (PInt 3) None
  = Raise (TypeError ("unable to encode outgoing TypedData: unsupported type " +:+
                      dquote +:+ "<class 'TextBinding'>" +:+ dquote +:+
                      " for Python type " +:+ dquote +:+ "int" +:+ dquote)).
Proof. reflexivity. Qed.

Example encode_accepted : outgoing "text" (PStr "hello") None = Ok (TD_string "hello").
Proof. reflexivity. Qed.

(** The scenarios of section 8. *)
Example scenario_string :
  from_typed_data repr Datum (TD_string "hello") = Ok (PDatum Datum (PStr "hello") (PStr "string")) /\
  as_proto convert_field repr (PDatum Datum (PStr "hello") (PStr "string")) = Ok (TD_string "hello").
Proof. split; reflexivity. Qed.

Example scenario_http_request :
  from_typed_data repr Datum http_request
  = Ok (PDatum Datum
          (PDict [ ("method", PDatum Datum (PStr "GET") (PStr "string"));
                   ("url", PDatum Datum (PStr "/x") (PStr "string"));
                   ("headers", PDict []);
                   ("body", PDatum Datum (PStr EmptyString) (PStr "string"));
                   ("params", PDict []);
                   ("query", PDict []) ])
          (PStr "http")).
Proof. reflexivity. Qed.

(** [==] and the class of the operands: an instance of a derived class is
    accepted by the method of a [Datum], but the operator asks the derived
    class first, which declines. *)
Example derived_instance :
  Datum__eq__ py_eq (PDatum Datum (PStr "a") (PStr "json"))
                    (PDatum ["Sub"] (PStr "a") (PStr "json")) = true /\
  py_eq (PDatum Datum (PStr "a") (PStr "json"))
        (PDatum ["Sub"] (PStr "a") (PStr "json")) = false /\
  py_eq (PDatum ["Sub"] (PStr "a") (PStr "json"))
        (PDatum Datum (PStr "a") (PStr "json")) = false.
Proof. repeat split. Qed.

End FacadeExamples.

Lemma get_binding_total_witness :
  get_binding Sample.loaded Sample.generic_binding "queue" = Sample.generic_binding /\
  get_binding Sample.loaded Sample.generic_binding "text" = Sample.text_binding.
Proof.
  destruct (get_binding_total Sample.loaded Sample.generic_binding "queue")
    as (_ & Hmiss & _).
  destruct (get_binding_total Sample.loaded Sample.generic_binding "text")
    as (_ & _ & Hhit & _).
  split.
  - apply (Hmiss Sample.registry); reflexivity.
  - apply (Hhit Sample.registry); reflexivity.
Defined.

Lemma from_incoming_proto_decode_witness :
  from_typed_data Sample.repr Datum (TD_bytes [x68; x69])
    = Ok (PDatum Datum (PBytes [x68; x69]) (PStr "bytes")) /\
  metadata_datums Sample.repr [("id", TD_string "7")]
    = Ok [("id", PDatum Datum (PStr "7") (PStr "string"))] /\
  exists tag m,
    WhichOneof (TD_bytes [x68; x69]) = Some tag /\
    from_incoming_proto Sample.repr Sample.loaded Sample.generic_binding
      "text" (TD_bytes [x68; x69]) None (Some [("id", TD_string "7")])
      = Raise (TypeError m) /\
    contains m (Sample.repr (PStr tag)) /\
    contains m (Binding.str (get_binding Sample.loaded Sample.generic_binding "text")).
Proof.
  split; [reflexivity|]. split; [reflexivity|].
  apply (proj1 (from_incoming_proto_decode Sample.repr Sample.loaded
                  Sample.generic_binding "text" (TD_bytes [x68; x69]) None
                  [("id", TD_string "7")] _ _ eq_refl eq_refl) EmptyString).
  reflexivity.
Defined.

Lemma to_outgoing_proto_encode_witness :
  (exists m,
     to_outgoing_proto Sample.convert_field Sample.repr Sample.loaded Sample.generic_binding
       "text" (PInt 3) None = Raise (TypeError m) /\
     contains m (Binding.str (get_binding Sample.loaded Sample.generic_binding "text")) /\
     contains m (type_name (PInt 3))) /\
  to_outgoing_proto Sample.convert_field Sample.repr Sample.loaded Sample.generic_binding
    "text" (PStr "hello") None
    = as_proto Sample.convert_field Sample.repr (PDatum Datum (PStr "hello") (PStr "string")).
Proof.
  split.
  - apply (proj1 (to_outgoing_proto_encode Sample.convert_field Sample.repr Sample.loaded
                    Sample.generic_binding "text" (PInt 3) None) EmptyString).
    reflexivity.
  - apply (proj2 (to_outgoing_proto_encode Sample.convert_field Sample.repr Sample.loaded
                    Sample.generic_binding "text" (PStr "hello") None)).
    reflexivity.
Defined.

Lemma from_incoming_proto_none_metadata_witness :
  from_incoming_proto Sample.repr Sample.loaded Sample.generic_binding
    "text" (TD_string "hello") None None
    = Raise (AttributeError "'NoneType' object has no attribute 'items'") /\
  from_incoming_proto Sample.repr Sample.loaded Sample.generic_binding
    "text" (TD_string "hello") None (Some []) = Ok (PStr "hello").
Proof.
  exact (from_incoming_proto_none_metadata Sample.repr Sample.loaded
           Sample.generic_binding "text" (TD_string "hello") None
           (PDatum Datum (PStr "hello") (PStr "string")) eq_refl).
Defined.

(** A wire value that [from_typed_data] rejects ends the call on line 149,
    before the metadata is looked at. *)
Lemma from_incoming_proto_none_metadata_other_error :
  from_incoming_proto Sample.repr Sample.loaded Sample.generic_binding
    "text" (TD_int 5) None None
  = Raise (NotImplementedError "unsupported TypeData kind: 'int'").
Proof. reflexivity. Qed.

(** ** Further properties of the code *)

(** *** [==] on Datums *)

Lemma rich_eq_Datum (n : nat) (ca cb : dclass) (va ta vb tb : pyval) :
  rich_eq (S n) (PDatum ca va ta) (PDatum cb vb tb) =
  dclass_eqb ca cb && (rich_eq n va vb && rich_eq n ta tb).
Proof.
  cbn [rich_eq]. destruct (dclass_eqb ca cb) eqn:Hc; cbn [negb andb].
  - apply dclass_eqb_eq in Hc as ->.
    unfold Datum__eq__, isinstance_d, issubclass_d. now rewrite is_prefix_refl.
  - destruct (issubclass_d cb ca) eqn:Hs.
    + apply Datum__eq___reflected. now rewrite Hc, Hs.
    + unfold Datum__eq__, isinstance_d. now rewrite Hs.
Qed.

Lemma dclass_eqb_sym (c d : dclass) : dclass_eqb c d = dclass_eqb d c.
Proof.
  destruct (dclass_eqb c d) eqn:E, (dclass_eqb d c) eqn:E'; try reflexivity.
  - apply dclass_eqb_eq in E. symmetry in E. apply dclass_eqb_eq in E. congruence.
  - apply dclass_eqb_eq in E'. symmetry in E'. apply dclass_eqb_eq in E'. congruence.
Qed.

Lemma bytes_eqb_sym (x y : list byte) : bytes_eqb x y = bytes_eqb y x.
Proof.
  destruct (bytes_eqb x y) eqn:E, (bytes_eqb y x) eqn:E'; try reflexivity.
  - apply bytes_eqb_eq in E. symmetry in E. apply bytes_eqb_eq in E. congruence.
  - apply bytes_eqb_eq in E'. symmetry in E'. apply bytes_eqb_eq in E'. congruence.
Qed.

Lemma distinct_NoDup (ks : list string) : distinct ks = true -> List.NoDup ks.
Proof.
  induction ks as [|k ks IH]; simpl; intros H; [constructor|].
  apply andb_true_iff in H as [Hk Hd]. constructor; [|now apply IH].
  intros Hin. apply negb_true_iff in Hk.
  assert (existsb (String.eqb k) ks = true); [|congruence].
  apply existsb_exists. exists k. split; [assumption|apply String.eqb_refl].
Qed.

Lemma assoc_some_in {A : Type} (items : list (string * A)) (k : string) (v : A) :
  assoc k items = Some v -> In (k, v) items.
Proof.
  induction items as [|[k' v'] items IH]; simpl; [discriminate|].
  destruct (String.eqb k k') eqn:E.
  - apply String.eqb_eq in E. intros [= ->]. left. now subst.
  - intros H. right. now apply IH.
Qed.

(** One direction of [dict.__eq__] gives the other when no key repeats and
    the values compare symmetrically. *)
Lemma dict_eq_flip (f : pyval -> pyval -> bool) (xs ys : list (string * pyval)) :
  distinct (map fst xs) = true -> distinct (map fst ys) = true ->
  (forall x y, In x xs -> In y ys -> f (snd x) (snd y) = f (snd y) (snd x)) ->
  dict_eq f xs ys = true -> dict_eq f ys xs = true.
Proof.
  intros Hdx Hdy Hsym H. unfold dict_eq in *.
  apply andb_true_iff in H as [Hlen Hall]. apply Nat.eqb_eq in Hlen.
  rewrite forallb_forall in Hall.
  apply andb_true_iff. split; [now apply Nat.eqb_eq|].
  assert (Hincl : incl (map fst xs) (map fst ys)).
  { intros k Hk. apply in_map_iff in Hk as (kv & <- & Hin).
    specialize (Hall kv Hin). destruct (assoc (fst kv) ys) as [v'|] eqn:E; [|discriminate].
    apply assoc_some_in in E. now apply (in_map fst) in E. }
  assert (Hback : incl (map fst ys) (map fst xs)).
  { apply List.NoDup_length_incl; [now apply distinct_NoDup| |assumption].
    rewrite !length_map. lia. }
  apply forallb_forall. intros kv' Hin'.
  assert (Hk : In (fst kv') (map fst xs)) by (apply Hback; now apply in_map).
  apply in_map_iff in Hk as (kv & Hfst & Hin).
  rewrite <- Hfst. rewrite (assoc_distinct xs kv Hdx Hin).
  specialize (Hall kv Hin). rewrite Hfst in Hall.
  rewrite (assoc_distinct ys kv' Hdy Hin') in Hall.
  now rewrite <- Hsym.
Qed.

Lemma rich_eq_sym (n : nat) (a b : pyval) :
  depth a < n -> depth b < n -> wf_val a = true -> wf_val b = true ->
  rich_eq n a b = rich_eq n b a.
Proof.
  revert a b. induction n as [|n IH]; intros a b Ha Hb Wa Wb; [lia|].
  destruct a as [| x | s | x |xs|ca va ta|x], b as [| y | t | y |ys|cb vb tb|y];
    try reflexivity; try (cbn [rich_eq]; apply float_eqb_sym).
  - cbn. apply Z.eqb_sym.
  - cbn. apply String.eqb_sym.
  - cbn. apply bytes_eqb_sym.
  - cbn [rich_eq].
    assert (Hdx : distinct (map fst xs) = true)
      by (simpl in Wa; now apply andb_true_iff in Wa).
    assert (Hdy : distinct (map fst ys) = true)
      by (simpl in Wb; now apply andb_true_iff in Wb).
    assert (Hs : forall x y, In x xs -> In y ys ->
                   rich_eq n (snd x) (snd y) = rich_eq n (snd y) (snd x)).
    { intros x y Hx Hy.
      pose proof (depth_dict_in _ _ Hx). pose proof (depth_dict_in _ _ Hy).
      apply IH; try lia; [now apply (wf_dict_in xs)|now apply (wf_dict_in ys)]. }
    destruct (dict_eq (rich_eq n) xs ys) eqn:E, (dict_eq (rich_eq n) ys xs) eqn:E';
      try reflexivity.
    + apply dict_eq_flip in E; try assumption. congruence.
    + apply dict_eq_flip in E'; try assumption; [congruence|].
      intros y x Hy Hx. symmetry. now apply Hs.
  - rewrite !rich_eq_Datum. simpl in Ha, Hb, Wa, Wb.
    apply andb_true_iff in Wa as [Wva Wta]. apply andb_true_iff in Wb as [Wvb Wtb].
    rewrite (dclass_eqb_sym ca cb).
    rewrite (IH va vb), (IH ta tb); try assumption; try lia. reflexivity.
Qed.

(** X1.  [==] is symmetric on well-formed values: for Datums, and for the
    payloads they carry, [a == b] and [b == a] give the same answer. *)
Theorem py_eq_sym (a b : pyval) :
  wf_val a = true -> wf_val b = true -> py_eq a b = py_eq b a.
Proof.
  intros Wa Wb.
  rewrite <- (py_eq_fuel (S (Nat.max (depth a) (depth b))) a b) by lia.
  rewrite <- (py_eq_fuel (S (Nat.max (depth a) (depth b))) b a) by lia.
  apply rich_eq_sym; try assumption; lia.
Qed.

Lemma py_eq_sym_witness :
  wf_val (PDatum Datum (PDict [("a", PInt 1); ("b", PStr "x")]) (PStr "json")) = true /\
  wf_val (PDatum Datum (PDict [("b", PStr "x"); ("a", PInt 1)]) (PStr "json")) = true /\
  py_eq (PDatum Datum (PDict [("a", PInt 1); ("b", PStr "x")]) (PStr "json"))
        (PDatum Datum (PDict [("b", PStr "x"); ("a", PInt 1)]) (PStr "json"))
  = py_eq (PDatum Datum (PDict [("b", PStr "x"); ("a", PInt 1)]) (PStr "json"))
          (PDatum Datum (PDict [("a", PInt 1); ("b", PStr "x")]) (PStr "json")).
Proof.
  split; [reflexivity|]. split; [reflexivity|].
  exact (py_eq_sym
           (PDatum Datum (PDict [("a", PInt 1); ("b", PStr "x")]) (PStr "json"))
           (PDatum Datum (PDict [("b", PStr "x"); ("a", PInt 1)]) (PStr "json"))
           eq_refl eq_refl).
Defined.

(** X2.  A Datum is never [==] to a value that is not a Datum, whichever
    side it stands on: the [isinstance] test of [__eq__] answers first. *)
Theorem Datum_ne_plain_value (c : dclass) (value type x : pyval) :
  isinstance_d x Datum = false ->
  py_eq (PDatum c value type) x = false /\ py_eq x (PDatum c value type) = false.
Proof.
  intros H. destruct x as [| z | s | b | items | cx vx tx | f];
    try (split; reflexivity).
  discriminate H.
Qed.

Lemma Datum_ne_plain_value_witness :
  isinstance_d (PStr "x") Datum = false /\
  py_eq (PDatum Datum (PStr "x") (PStr "string")) (PStr "x") = false /\
  py_eq (PStr "x") (PDatum Datum (PStr "x") (PStr "string")) = false.
Proof.
  split; [reflexivity|].
  exact (Datum_ne_plain_value Datum (PStr "x") (PStr "string") (PStr "x") eq_refl).
Defined.

(** X3.  Across a class and a class properly derived from it, the method
    is one-sided: called on the base instance it compares the fields of a
    derived instance, called on the derived instance it rejects the base
    instance; the [==] operator answers [False] in both orders. *)
Theorem Datum__eq___one_sided (ca cb : dclass) (va ta vb tb : pyval) :
  issubclass_d cb ca = true -> ca <> cb ->
  Datum__eq__ py_eq (PDatum ca va ta) (PDatum cb vb tb) = py_eq va vb && py_eq ta tb /\
  Datum__eq__ py_eq (PDatum cb vb tb) (PDatum ca va ta) = false /\
  py_eq (PDatum ca va ta) (PDatum cb vb tb) = false /\
  py_eq (PDatum cb vb tb) (PDatum ca va ta) = false.
Proof.
  intros Hsub Hne.
  assert (Hc : dclass_eqb ca cb = false).
  { destruct (dclass_eqb ca cb) eqn:E; [|reflexivity]. now apply dclass_eqb_eq in E. }
  assert (Hrev : issubclass_d ca cb = false).
  { unfold issubclass_d in *. destruct (is_prefix cb ca) eqn:E; [|reflexivity].
    exfalso. apply Hne. now apply is_prefix_antisym. }
  split; [|split; [|split]].
  - unfold Datum__eq__, isinstance_d. now rewrite Hsub.
  - unfold Datum__eq__, isinstance_d. now rewrite Hrev.
  - rewrite py_eq_Datum. now rewrite Hc.
  - rewrite py_eq_Datum. now rewrite dclass_eqb_sym, Hc.
Qed.

Lemma Datum__eq___one_sided_witness :
  issubclass_d ["Sub"] Datum = true /\ Datum <> ["Sub"] /\
  Datum__eq__ py_eq (PDatum Datum (PStr "a") (PStr "json"))
                    (PDatum ["Sub"] (PStr "a") (PStr "json"))
    = py_eq (PStr "a") (PStr "a") && py_eq (PStr "json") (PStr "json") /\
  Datum__eq__ py_eq (PDatum ["Sub"] (PStr "a") (PStr "json"))
                    (PDatum Datum (PStr "a") (PStr "json")) = false /\
  py_eq (PDatum Datum (PStr "a") (PStr "json"))
        (PDatum ["Sub"] (PStr "a") (PStr "json")) = false /\
  py_eq (PDatum ["Sub"] (PStr "a") (PStr "json"))
        (PDatum Datum (PStr "a") (PStr "json")) = false.
Proof.
  assert (Hne : Datum <> ["Sub"]) by discriminate.
  split; [reflexivity|]. split; [exact Hne|].
  exact (Datum__eq___one_sided Datum ["Sub"] (PStr "a") (PStr "json")
           (PStr "a") (PStr "json") eq_refl Hne).
Defined.

(** *** [Datum.__repr__] *)

Lemma length_append (s t : string) :
  String.length (s +:+ t) = String.length s + String.length t.
Proof.
  induction s as [|a s IH]; [reflexivity|].
  change (S (String.length (s +:+ t)) = S (String.length s + String.length t)).
  now rewrite IH.
Qed.

Lemma length_str_take (n : nat) (s : string) :
  String.length (str_take n s) = Nat.min n (String.length s).
Proof.
  revert s. induction n as [|n IH]; intros [|a s]; simpl; try reflexivity.
  now rewrite IH.
Qed.

Section RenderingFacts.

Variable py_repr : pyval -> string.
Variable py_str : pyval -> string.

Abbreviation render := (Datum__repr__ py_repr py_str).

(** X4.  The debug rendering is bounded and lossy: the value takes at most
    thirteen characters of it (its [repr], or the first ten characters of
    the [repr] and three dots), so the text is at most 22 characters longer
    than the rendered type tag, and two values whose long [repr]s agree on
    their first ten characters render alike. *)
Theorem Datum__repr___bounded (value type : pyval) :
  String.length (render value type) =
    9 + String.length (py_str type) +
    (if Nat.ltb 10 (String.length (py_repr value)) then 13
     else String.length (py_repr value)) /\
  String.length (render value type) <= String.length (py_str type) + 22 /\
  (forall value',
     10 < String.length (py_repr value) -> 10 < String.length (py_repr value') ->
     str_take 10 (py_repr value) = str_take 10 (py_repr value') ->
     render value type = render value' type).
Proof.
  assert (Hlen : String.length (render value type) =
            9 + String.length (py_str type) +
            (if Nat.ltb 10 (String.length (py_repr value)) then 13
             else String.length (py_repr value))).
  { unfold Datum__repr__. rewrite !length_append.
    destruct (Nat.ltb 10 (String.length (py_repr value))) eqn:E.
    - apply Nat.ltb_lt in E. rewrite length_append, length_str_take.
      change (String.length "<Datum ") with 7. change (String.length " ") with 1.
      change (String.length ">") with 1. change (String.length "...") with 3. lia.
    - change (String.length "<Datum ") with 7. change (String.length " ") with 1.
      change (String.length ">") with 1. lia. }
  split; [exact Hlen|]. split.
  - rewrite Hlen. destruct (Nat.ltb 10 (String.length (py_repr value))) eqn:E; [lia|].
    apply Nat.ltb_ge in E. lia.
  - intros value' H1 H2 Htake. unfold Datum__repr__.
    apply Nat.ltb_lt in H1, H2. now rewrite H1, H2, Htake.
Qed.

End RenderingFacts.

Lemma Datum__repr___bounded_witness :
  Datum__repr__ Sample.repr Sample.text_of (PStr "0123456789abc") (PStr "json")
  = Datum__repr__ Sample.repr Sample.text_of (PStr "0123456789xyz") (PStr "json").
Proof.
  apply (Datum__repr___bounded Sample.repr Sample.text_of
           (PStr "0123456789abc") (PStr "json")).
  - simpl. lia.
  - simpl. lia.
  - reflexivity.
Defined.

(** *** Decoding wire messages *)

(** Induction along the [rawBody] of http messages. *)
Lemma TypedData_rawBody_ind (P : TypedData -> Prop) :
  (forall td, http_message td = false -> P td) ->
  (forall h, P (rawBody h) -> P (TD_http h)) ->
  forall td, P td.
Proof.
  intros Hleaf Hhttp. fix IH 1. intros td.
  destruct td as [| s | s | b | b | h | z | z]; try (now apply Hleaf).
  apply Hhttp. apply IH.
Qed.

Lemma NoDup_distinct (ks : list string) : List.NoDup ks -> distinct ks = true.
Proof.
  induction 1 as [|k ks Hnin _ IH]; simpl; [reflexivity|].
  rewrite IH, andb_true_r. apply negb_true_iff.
  destruct (existsb (String.eqb k) ks) eqn:E; [|reflexivity].
  apply existsb_exists in E as (k' & Hin & Heq).
  apply String.eqb_eq in Heq. now subst.
Qed.

Lemma map_fst_fmap {A B : Type} (l : list (A * B)) : map fst l = l.*1.
Proof. induction l as [|x l IH]; simpl; [reflexivity|now rewrite IH]. Qed.

Lemma distinct_map_to_list (m : gmap string string) :
  distinct (map fst (map_to_list m)) = true.
Proof.
  apply NoDup_distinct. rewrite map_fst_fmap.
  apply NoDup_ListNoDup, NoDup_fst_map_to_list.
Qed.

Lemma in_map_to_list (m : gmap string string) (k v : string) :
  In (k, v) (map_to_list m) <-> m !! k = Some v.
Proof. rewrite <- list_elem_of_In. apply elem_of_map_to_list. Qed.

Lemma string_datums_items (m : gmap string string) :
  string_datums m = PDict (map (fun kv => (fst kv, string_datum (snd kv))) (map_to_list m)).
Proof. reflexivity. Qed.

Lemma wf_string_datums (m : gmap string string) : wf_val (string_datums m) = true.
Proof.
  rewrite string_datums_items. cbn [wf_val]. apply andb_true_iff. split.
  - rewrite map_map. cbn [fst]. apply distinct_map_to_list.
  - induction (map_to_list m) as [|kv l IH]; [reflexivity|]. exact IH.
Qed.

Lemma nan_free_string_datums (m : gmap string string) :
  nan_free (string_datums m) = true.
Proof.
  rewrite string_datums_items. cbn [nan_free].
  induction (map_to_list m) as [|kv l IH]; [reflexivity|]. exact IH.
Qed.

(** A header, parameter or query entry is read back from the decoded
    mapping as a text Datum; a name the wire map lacks is a [KeyError]. *)
Lemma string_datums_lookup (m : gmap string string) (k : string) :
  getitem (string_datums m) k =
  match m !! k with
  | Some v => Ok (string_datum v)
  | None => Raise (KeyError k)
  end.
Proof.
  rewrite string_datums_items. cbn [getitem].
  set (wrap := fun kv : string * string => (fst kv, string_datum (snd kv))).
  assert (Hd : distinct (map fst (map wrap (map_to_list m))) = true).
  { rewrite map_map. cbn [fst wrap]. apply distinct_map_to_list. }
  destruct (m !! k) as [v|] eqn:Hk.
  - apply in_map_to_list in Hk. apply (in_map wrap) in Hk.
    pose proof (assoc_distinct _ (k, string_datum v) Hd Hk) as E.
    cbn [fst snd] in E. now rewrite E.
  - destruct (assoc k (map wrap (map_to_list m))) as [x|] eqn:E; [|reflexivity].
    apply assoc_some_in in E. apply in_map_iff in E as ([k' v'] & [= -> _] & Hin).
    apply in_map_to_list in Hin. congruence.
Qed.

Section Decoding.

Variable convert_field : string -> pyval -> result TypedData.
Variable py_repr : pyval -> string.

Abbreviation decode_td := (from_typed_data py_repr).

(** X5.  [from_typed_data] is decided by the innermost [rawBody]: when its
    populated field is [string], [bytes] or [json] the call returns an
    instance of the receiving class tagged with the name of the message's
    own populated field; otherwise it raises [NotImplementedError] with the
    [repr] of the innermost discriminant (of [None] when no field is set,
    as for an http message without a body), and nothing else. *)
Theorem from_typed_data_outcome (cls : dclass) (td : TypedData) :
  (scalar_message (payload_of td) = true ->
     exists value,
       decode_td cls td = Ok (PDatum cls value (tag_val (WhichOneof td)))) /\
  (scalar_message (payload_of td) = false ->
     decode_td cls td = Raise (unsupported_kind py_repr (WhichOneof (payload_of td)))).
Proof.
  revert cls. induction td as [td Hleaf | h IH] using TypedData_rawBody_ind; intros cls.
  - destruct td; try discriminate Hleaf; cbn; split; intros H;
      try discriminate H; try reflexivity; now eexists.
  - cbn [payload_of from_typed_data]. destruct (IH Datum) as [Hok Herr]. split.
    + intros H. destruct (Hok H) as [b ->]. now eexists.
    + intros H. now rewrite (Herr H).
Qed.

(** X6.  Every Datum that [from_typed_data] returns is well formed (no
    mapping in it repeats a key) and compares equal to itself. *)
Theorem from_typed_data_well_formed (cls : dclass) (td : TypedData) (d : pyval) :
  decode_td cls td = Ok d -> wf_val d = true /\ py_eq d d = true.
Proof.
  intros H. assert (Hok : wf_val d = true /\ nan_free d = true);
    [|destruct Hok; split; [assumption|now apply py_eq_refl]].
  revert cls d H.
  induction td as [td Hleaf | h IH] using TypedData_rawBody_ind; intros cls d H.
  - destruct td; try discriminate Hleaf; cbn in H; try discriminate H;
      injection H as <-; split; reflexivity.
  - cbn [from_typed_data] in H.
    destruct (decode_td Datum (rawBody h)) as [b|e] eqn:Hb; [|discriminate].
    injection H as <-. destruct (IH Datum b Hb) as [Wb Nb].
    generalize (wf_string_datums (headers h)) (wf_string_datums (params h))
               (wf_string_datums (query h)).
    generalize (nan_free_string_datums (headers h)) (nan_free_string_datums (params h))
               (nan_free_string_datums (query h)).
    generalize (string_datums (headers h)) (string_datums (params h))
               (string_datums (query h)).
    intros hs ps qs Nh Np Nq Wh Wp Wq. cbn.
    now rewrite Wh, Wp, Wq, Wb, Nh, Np, Nq, Nb.
Qed.

(** X7.  The Datum decoded from an http message reads back the request:
    [method] and [url] as text Datums, each header, parameter and query
    entry under its name as a text Datum ([KeyError] for a name the wire
    map lacks), and [body] as the plain [Datum] decoded from [rawBody],
    whatever class received the call. *)
Theorem from_typed_data_http_fields (cls : dclass) (h : RpcHttp) (d : pyval) :
  decode_td cls (TD_http h) = Ok d ->
  exists value,
    d = PDatum cls value (PStr "http") /\
    getitem value "method" = Ok (string_datum (method h)) /\
    getitem value "url" = Ok (string_datum (url h)) /\
    getitem value "body" = decode_td Datum (rawBody h) /\
    (forall k,
       (let* hs := getitem value "headers" in getitem hs k) =
         match headers h !! k with
         | Some v => Ok (string_datum v) | None => Raise (KeyError k) end /\
       (let* ps := getitem value "params" in getitem ps k) =
         match params h !! k with
         | Some v => Ok (string_datum v) | None => Raise (KeyError k) end /\
       (let* qs := getitem value "query" in getitem qs k) =
         match query h !! k with
         | Some v => Ok (string_datum v) | None => Raise (KeyError k) end).
Proof.
  cbn [from_typed_data].
  destruct (decode_td Datum (rawBody h)) as [b|e] eqn:Hb; [|discriminate].
  intros [= <-]. eexists. split; [reflexivity|].
  split; [reflexivity|]. split; [reflexivity|]. split; [reflexivity|].
  intros k. cbn [getitem assoc String.eqb Ascii.eqb Bool.eqb].
  now rewrite !string_datums_lookup.
Qed.

(** X8.  Encoding a decoded Datum again: a Datum decoded from a [string],
    [bytes] or [json] message gives that message back, for every receiving
    class; a Datum decoded from an http message has no [status_code] and
    makes [as_proto] raise [KeyError]. *)
Theorem as_proto_of_decoded (cls : dclass) (td : TypedData) (d : pyval) :
  decode_td cls td = Ok d ->
  as_proto convert_field py_repr d =
    if http_message td then Raise (KeyError "status_code") else Ok td.
Proof.
  destruct td as [| s | s | b | b | h | z | z]; cbn [from_typed_data];
    try discriminate; try (intros [= <-]; reflexivity).
  destruct (decode_td Datum (rawBody h)) as [body|e]; [|discriminate].
  intros [= <-]. reflexivity.
Qed.

End Decoding.

Lemma from_typed_data_outcome_witness :
  from_typed_data Sample.repr Datum
    (TD_http {| method := "GET"; url := "/x"; headers := ∅; body := TD_string "b";
                params := ∅; status_code := EmptyString; query := ∅;
                enable_content_negotiation := false; rawBody := TD_unset |})
  = Raise (NotImplementedError "unsupported TypeData kind: None").
Proof.
  apply (from_typed_data_outcome Sample.repr Datum
           (TD_http {| method := "GET"; url := "/x"; headers := ∅; body := TD_string "b";
                       params := ∅; status_code := EmptyString; query := ∅;
                       enable_content_negotiation := false; rawBody := TD_unset |})).
  reflexivity.
Defined.

Lemma from_typed_data_well_formed_witness :
  exists d,
    from_typed_data Sample.repr Datum Sample.http_request = Ok d /\
    wf_val d = true /\ py_eq d d = true.
Proof.
  eexists. split; [reflexivity|].
  apply (from_typed_data_well_formed Sample.repr Datum Sample.http_request).
  reflexivity.
Defined.

Lemma from_typed_data_http_fields_witness :
  exists d value,
    from_typed_data Sample.repr ["Sub"] Sample.http_request = Ok d /\
    d = PDatum ["Sub"] value (PStr "http") /\
    getitem value "url" = Ok (string_datum "/x") /\
    getitem value "body" = Ok (PDatum Datum (PStr EmptyString) (PStr "string")).
Proof.
  destruct (from_typed_data Sample.repr ["Sub"] Sample.http_request) as [d|e] eqn:E;
    [|discriminate E].
  destruct (from_typed_data_http_fields Sample.repr ["Sub"] _ d E)
    as (value & Hd & _ & Hurl & Hbody & _).
  exists d, value. split; [reflexivity|]. split; [exact Hd|]. split; [exact Hurl|].
  exact Hbody.
Defined.

Lemma as_proto_of_decoded_witness :
  as_proto Sample.convert_field Sample.repr (PDatum ["Sub"] (PStr "{}") (PStr "json")) = Ok (TD_json "{}").
Proof.
  apply (as_proto_of_decoded Sample.convert_field Sample.repr ["Sub"] (TD_json "{}")). reflexivity.
Defined.

(** *** Hashing decoded Datums *)

Section DecodedHash.

Variable py_repr : pyval -> string.
Variable hash_none : Z.
Variable hash_int : Z -> Z.
Variable hash_float : pyfloat -> Z.
Variable hash_str : string -> Z.
Variable hash_bytes : list byte -> Z.
Variable hash_class : dclass -> Z.
Variable hash_tuple : list Z -> Z.

Abbreviation hash_of :=
  (py_hash hash_none hash_int hash_float hash_str hash_bytes hash_class hash_tuple).

(** X9.  A Datum decoded from an http message cannot be hashed (its value
    is a [dict]: [TypeError]); a Datum decoded from a [string], [bytes] or
    [json] message has a hash, built from its class, its payload and its
    tag. *)
Theorem hash_of_decoded (cls : dclass) (td : TypedData) (d : pyval) :
  from_typed_data py_repr cls td = Ok d ->
  (http_message td = true ->
     hash_of d = Raise (TypeError "unhashable type: 'dict'")) /\
  (http_message td = false ->
     exists value hv tag,
       d = PDatum cls value (PStr tag) /\ hash_of value = Ok hv /\
       hash_of d = Ok (hash_tuple [hash_class cls; hash_tuple [hv; hash_str tag]])).
Proof.
  destruct td as [| s | s | b | b | h | z | z]; cbn [from_typed_data];
    try discriminate.
  - intros [= <-]. split; [discriminate|]. intros _.
    exists (PStr s), (hash_str s), "string". now repeat split.
  - intros [= <-]. split; [discriminate|]. intros _.
    exists (PStr s), (hash_str s), "json". now repeat split.
  - intros [= <-]. split; [discriminate|]. intros _.
    exists (PBytes b), (hash_bytes b), "bytes". now repeat split.
  - destruct (from_typed_data py_repr Datum (rawBody h)) as [body|e]; [|discriminate].
    intros [= <-]. split; [reflexivity|discriminate].
Qed.

End DecodedHash.

Lemma hash_of_decoded_witness :
  py_hash 0%Z Z.abs (fun _ => 0%Z) Sample.hash_text (fun b => Z.of_nat (length b))
          Sample.hash_class Sample.hash_tuple
          (PDatum Datum
             (PDict [ ("method", string_datum "GET"); ("url", string_datum "/x");
                      ("headers", PDict []); ("body", string_datum EmptyString);
                      ("params", PDict []); ("query", PDict []) ])
             (PStr "http"))
  = Raise (TypeError "unhashable type: 'dict'").
Proof.
  apply (hash_of_decoded Sample.repr 0%Z Z.abs (fun _ => 0%Z) Sample.hash_text
           (fun b => Z.of_nat (length b)) Sample.hash_class Sample.hash_tuple
           Datum Sample.http_request); reflexivity.
Defined.

(** *** Encoding *)

Section Encoding.

Variable convert_field : string -> pyval -> result TypedData.
Variable py_repr : pyval -> string.

(** [as_proto] returns a message only for the tags [string], [bytes] and
    [json]. *)
Lemma as_proto_ok_tag (self : pyval) (td : TypedData) :
  as_proto convert_field py_repr self = Ok td ->
  exists c value tag,
    self = PDatum c value (PStr tag) /\ In tag ["string"; "bytes"; "json"].
Proof.
  destruct self as [| z | s | b | items | c value type | f]; try discriminate.
  unfold as_proto. intros H.
  destruct (py_eq type (PStr "string")) eqn:Es.
  { apply py_eq_text in Es as ->. exists c, value, "string". simpl. auto. }
  destruct (py_eq type (PStr "bytes")) eqn:Eb.
  { apply py_eq_text in Eb as ->. exists c, value, "bytes". simpl. auto. }
  destruct (py_eq type (PStr "json")) eqn:Ej.
  { apply py_eq_text in Ej as ->. exists c, value, "json". simpl. auto. }
  destruct (py_eq type (PStr "http")); [|discriminate].
  destruct (getitem value "status_code") as [sc|]; [|discriminate].
  destruct (getattr_value sc); discriminate.
Qed.

(** X10.  Whenever [as_proto] returns a message, the Datum's tag is
    [string], [bytes] or [json] -- a Datum tagged [http], or anything else,
    never gets a message -- and when the value is of the tag's own type the
    message has exactly that field populated and decodes, with the Datum's
    class as receiver, to the Datum itself. *)
Theorem as_proto_returns_scalar (self : pyval) (td : TypedData) :
  as_proto convert_field py_repr self = Ok td ->
  exists c value tag,
    self = PDatum c value (PStr tag) /\
    In tag ["string"; "bytes"; "json"] /\
    (kind_shape tag value = true ->
       WhichOneof td = Some tag /\ from_typed_data py_repr c td = Ok self).
Proof.
  intros H. destruct (as_proto_ok_tag self td H) as (c & value & tag & -> & Hin).
  exists c, value, tag. split; [reflexivity|]. split; [exact Hin|].
  intros Hshape. simpl in Hin.
  destruct Hin as [<- | [<- | [<- | []]]];
    destruct value as [| z | s | b | items | c' v' t' | f];
    try discriminate Hshape; cbn in H; injection H as <-; split; reflexivity.
Qed.

(** X11.  The http branch of [as_proto], case by case: a value that is not
    a mapping gives the [TypeError] of the subscript, a mapping without
    [status_code] gives [KeyError], a [status_code] entry that is not a
    Datum gives [AttributeError], and in the remaining case -- the one a
    response Datum is in -- the unbound name [headers] gives [NameError]. *)
Theorem as_proto_http_errors (c : dclass) (value : pyval) :
  as_proto convert_field py_repr (PDatum c value (PStr "http")) =
    match value with
    | PDict items =>
        match assoc "status_code" items with
        | None => Raise (KeyError "status_code")
        | Some (PDatum _ _ _) => Raise (NameError "headers")
        | Some sc => Raise (no_attribute sc "value")
        end
    | PStr _ => Raise (TypeError "string indices must be integers")
    | PBytes _ => Raise (TypeError "byte indices must be integers or slices, not str")
    | _ => Raise (TypeError ("'" +:+ type_name value +:+ "' object is not subscriptable"))
    end.
Proof.
  destruct value as [| z | s | b | items | c' v' t' | f]; try reflexivity.
  cbn. destruct (assoc "status_code" items) as [sc|]; [|reflexivity].
  now destruct sc.
Qed.

End Encoding.

Lemma as_proto_returns_scalar_witness :
  exists c value tag,
    PDatum ["Sub"] (PBytes [x68]) (PStr "bytes") = PDatum c value (PStr tag) /\
    In tag ["string"; "bytes"; "json"] /\
    (kind_shape tag value = true ->
       WhichOneof (TD_bytes [x68]) = Some tag /\
       from_typed_data Sample.repr c (TD_bytes [x68])
         = Ok (PDatum ["Sub"] (PBytes [x68]) (PStr "bytes"))).
Proof.
  apply (as_proto_returns_scalar Sample.convert_field Sample.repr
           (PDatum ["Sub"] (PBytes [x68]) (PStr "bytes")) (TD_bytes [x68])).
  reflexivity.
Defined.

(** *** What the facade passes through *)

Lemma from_typed_data_error (py_repr : pyval -> string) (cls : dclass)
    (td : TypedData) (e : exn) :
  from_typed_data py_repr cls td = Raise e -> exists msg, e = NotImplementedError msg.
Proof.
  revert cls. induction td as [td Hleaf | h IH] using TypedData_rawBody_ind; intros cls.
  - destruct td; try discriminate Hleaf; cbn; try discriminate;
      intros [= <-]; now eexists.
  - cbn [from_typed_data].
    destruct (from_typed_data py_repr Datum (rawBody h)) as [b|e'] eqn:Hb; [discriminate|].
    intros [= <-]. now apply (IH Datum).
Qed.

Lemma metadata_datums_error (py_repr : pyval -> string)
    (items : list (string * TypedData)) (e : exn) :
  metadata_datums py_repr items = Raise e -> exists msg, e = NotImplementedError msg.
Proof.
  induction items as [|[k v] items IH]; cbn; [discriminate|].
  destruct (from_typed_data py_repr Datum v) as [d|e'] eqn:Hd.
  - destruct (metadata_datums py_repr items) as [md|e'']; [discriminate|].
    intros [= <-]. now apply IH.
  - intros [= <-]. now apply (from_typed_data_error py_repr Datum v).
Qed.

Section FacadeFlow.

Context {cls : Type}.
Variable convert_field : string -> pyval -> result TypedData.
Variable py_repr : pyval -> string.
Variable sys_modules : gmap string (PyModule cls).
Variable GenericBinding : Binding.t cls.

Abbreviation resolved := (get_binding sys_modules GenericBinding).
Abbreviation incoming_proto := (from_incoming_proto py_repr sys_modules GenericBinding).
Abbreviation outgoing_proto := (to_outgoing_proto convert_field py_repr sys_modules GenericBinding).

(** X12.  Only the [NotImplementedError] of the binding's own [decode] is
    turned into a [TypeError].  A value, or a metadata entry, that
    [from_typed_data] cannot decode ends the call with that
    [NotImplementedError] as it is, whatever the binding; and any other
    exception of [decode] passes through unchanged. *)
Theorem from_incoming_proto_untranslated
    (binding : string) (val : TypedData) (pytype : option (pyobj cls))
    (items : list (string * TypedData)) :
  (forall e md,
     from_typed_data py_repr Datum val = Raise e ->
     incoming_proto binding val pytype md = Raise e /\
     exists msg, e = NotImplementedError msg) /\
  (forall datum e,
     from_typed_data py_repr Datum val = Ok datum ->
     metadata_datums py_repr items = Raise e ->
     incoming_proto binding val pytype (Some items) = Raise e /\
     exists msg, e = NotImplementedError msg) /\
  (forall datum metadata e,
     from_typed_data py_repr Datum val = Ok datum ->
     metadata_datums py_repr items = Ok metadata ->
     Binding.decode (resolved binding) datum metadata = Raise e ->
     (forall msg, e <> NotImplementedError msg) ->
     incoming_proto binding val pytype (Some items) = Raise e).
Proof.
  unfold from_incoming_proto. split; [|split].
  - intros e md Hv. rewrite Hv. split; [reflexivity|].
    now apply (from_typed_data_error py_repr Datum val).
  - intros datum e Hv Hm. rewrite Hv. cbn [metadata_items]. rewrite Hm.
    split; [reflexivity|]. now apply (metadata_datums_error py_repr items).
  - intros datum metadata e Hv Hm Hd Hne. rewrite Hv. cbn [metadata_items].
    rewrite Hm, Hd. destruct e; try reflexivity. now destruct (Hne msg).
Qed.

(** X13.  The metadata map is converted entry by entry: it converts
    exactly when every entry is a message [from_typed_data] accepts, and
    the result keeps the keys in their order, each with the plain [Datum]
    decoded from its message. *)
Theorem metadata_datums_entries (items : list (string * TypedData)) :
  returns (metadata_datums py_repr items) =
    forallb (fun kv => scalar_message (payload_of (snd kv))) items /\
  (forall metadata,
     metadata_datums py_repr items = Ok metadata ->
     map fst metadata = map fst items /\
     Forall2 (fun kv kd => from_typed_data py_repr Datum (snd kv) = Ok (snd kd))
             items metadata).
Proof.
  assert (Hret : forall td,
            returns (from_typed_data py_repr Datum td) = scalar_message (payload_of td)).
  { intros td. generalize Datum.
    induction td as [td Hleaf | h IH] using TypedData_rawBody_ind; intros c.
    - now destruct td.
    - cbn [from_typed_data payload_of]. rewrite <- (IH Datum).
      now destruct (from_typed_data py_repr Datum (rawBody h)). }
  induction items as [|[k v] items [IHr IHk]]; cbn [metadata_datums forallb snd].
  - split; [reflexivity|]. intros md [= <-]. split; [reflexivity|constructor].
  - rewrite <- Hret, <- IHr.
    destruct (from_typed_data py_repr Datum v) as [d|e] eqn:Hd; [|split; [reflexivity|discriminate]].
    destruct (metadata_datums py_repr items) as [md|e'] eqn:Hm;
      [|split; [reflexivity|discriminate]].
    split; [reflexivity|]. intros metadata [= <-].
    destruct (IHk md eq_refl) as [Hkeys Hall]. split.
    + cbn. now rewrite Hkeys.
    + constructor; [exact Hd|exact Hall].
Qed.

(** X14.  What [to_outgoing_proto] can give.  A returned message is the
    [as_proto()] of the Datum [encode] returned, and that Datum is tagged
    [string], [bytes] or [json] -- never [http].  A Datum with a tag
    outside the four kinds ends the call with [as_proto]'s untranslated
    [NotImplementedError], a Datum of kind [http] never gets through, a
    result of [encode] that is not a Datum gives [AttributeError], and an
    exception of [encode] other than [NotImplementedError] passes through. *)
Theorem to_outgoing_proto_outcomes
    (binding : string) (obj : pyval) (pytype : option (pyobj cls)) :
  (forall td,
     outgoing_proto binding obj pytype = Ok td ->
     exists c value tag,
       Binding.encode (resolved binding) obj pytype = Ok (PDatum c value (PStr tag)) /\
       In tag ["string"; "bytes"; "json"] /\
       as_proto convert_field py_repr (PDatum c value (PStr tag)) = Ok td) /\
  (forall c value type,
     Binding.encode (resolved binding) obj pytype = Ok (PDatum c value type) ->
     type <> PStr "string" -> type <> PStr "bytes" ->
     type <> PStr "json" -> type <> PStr "http" ->
     outgoing_proto binding obj pytype =
       Raise (NotImplementedError ("unexpected Datum type: " +:+ py_repr type))) /\
  (forall c value,
     Binding.encode (resolved binding) obj pytype = Ok (PDatum c value (PStr "http")) ->
     returns (outgoing_proto binding obj pytype) = false) /\
  (forall x,
     Binding.encode (resolved binding) obj pytype = Ok x ->
     isinstance_d x Datum = false ->
     outgoing_proto binding obj pytype = Raise (no_attribute x "as_proto")) /\
  (forall e,
     Binding.encode (resolved binding) obj pytype = Raise e ->
     (forall msg, e <> NotImplementedError msg) ->
     outgoing_proto binding obj pytype = Raise e).
Proof.
  unfold to_outgoing_proto. repeat apply conj.
  - intros td H.
    destruct (Binding.encode (resolved binding) obj pytype) as [datum|e] eqn:He.
    + destruct (as_proto_ok_tag convert_field py_repr datum td H)
        as (c & value & tag & -> & Hin).
      now exists c, value, tag.
    + now destruct e.
  - intros c value type -> Hs Hb Hj Hh. unfold as_proto.
    now rewrite !py_eq_text_neq.
  - intros c value ->. apply as_proto_http_raises.
  - intros x -> Hx. destruct x; try reflexivity. discriminate Hx.
  - intros e -> Hne. destruct e; try reflexivity. now destruct (Hne msg).
Qed.

End FacadeFlow.

Lemma from_incoming_proto_untranslated_witness :
  from_incoming_proto Sample.repr Sample.loaded Sample.generic_binding
    "text" (TD_string "hello") None (Some [("id", TD_int 7)])
  = Raise (NotImplementedError "unsupported TypeData kind: 'int'").
Proof.
  destruct (from_incoming_proto_untranslated Sample.repr Sample.loaded
              Sample.generic_binding "text" (TD_string "hello") None
              [("id", TD_int 7)]) as (_ & Hmeta & _).
  apply (Hmeta (PDatum Datum (PStr "hello") (PStr "string"))); reflexivity.
Defined.

Lemma metadata_datums_entries_witness :
  map fst [("a", PDatum Datum (PStr "1") (PStr "string"));
           ("b", PDatum Datum (PBytes [x68]) (PStr "bytes"))]
  = map fst [("a", TD_string "1"); ("b", TD_bytes [x68])].
Proof.
  apply (metadata_datums_entries Sample.repr
           [("a", TD_string "1"); ("b", TD_bytes [x68])]).
  reflexivity.
Defined.

Lemma to_outgoing_proto_outcomes_witness :
  to_outgoing_proto Sample.convert_field Sample.repr Sample.loaded Sample.generic_binding
    "queue" (PDatum Datum (PInt 5) (PStr "int")) None
  = Raise (NotImplementedError "unexpected Datum type: 'int'") /\
  returns (to_outgoing_proto Sample.convert_field Sample.repr Sample.loaded Sample.generic_binding
             "queue" Sample.http_response None) = false /\
  to_outgoing_proto Sample.convert_field Sample.repr Sample.loaded Sample.generic_binding
    "queue" (PStr "hello") None
  = Raise (AttributeError "'str' object has no attribute 'as_proto'").
Proof.
  destruct (to_outgoing_proto_outcomes Sample.convert_field Sample.repr Sample.loaded
              Sample.generic_binding "queue" (PDatum Datum (PInt 5) (PStr "int")) None)
    as (_ & Htag & _).
  destruct (to_outgoing_proto_outcomes Sample.convert_field Sample.repr Sample.loaded
              Sample.generic_binding "queue" Sample.http_response None)
    as (_ & _ & Hhttp & _).
  destruct (to_outgoing_proto_outcomes Sample.convert_field Sample.repr Sample.loaded
              Sample.generic_binding "queue" (PStr "hello") None)
    as (_ & _ & _ & Hplain & _).
  split; [|split].
  - apply (Htag Datum (PInt 5) (PStr "int")); [reflexivity| | | |]; discriminate.
  - eapply (Hhttp Datum). reflexivity.
  - apply (Hplain (PStr "hello")); reflexivity.
Defined.

(** *** More on the matcher *)

Lemma py_any_map {A B : Type} (g : A -> B) (f : B -> result bool) (l : list A) :
  py_any f (map g l) = py_any (fun x => f (g x)) l.
Proof.
  induction l as [|x l IH]; simpl; [reflexivity|].
  destruct (f (g x)) as [[|]|e]; try reflexivity. exact IH.
Qed.

Lemma py_any_app {A : Type} (f : A -> result bool) (l1 l2 : list A) :
  py_any f (l1 ++ l2) =
  match py_any f l1 with
  | Ok false => py_any f l2
  | r => r
  end.
Proof.
  induction l1 as [|x l1 IH]; simpl; [reflexivity|].
  destruct (f x) as [[|]|e]; try reflexivity. exact IH.
Qed.



Section MatcherMore.

Context {cls : Type}.
Variable subclass : cls -> cls -> bool.
Variable Iterable : cls.
Variable issubclass_union : cls -> list (pyobj cls) -> result bool.
Variable generic_class : cls -> bool.
Variable class_origin : cls -> pyobj cls.

Abbreviation matcher := (is_iterable_type_annotation subclass Iterable issubclass_union generic_class class_origin).


(** X16.  A candidate that is not itself a tuple is matched like the
    one-element tuple holding it, for every annotation -- also when the
    outcome is an exception. *)
Theorem is_iterable_type_annotation_singleton (annotation t : pyobj cls) :
  isinstance_tuple t = false ->
  matcher annotation (OTuple [t]) = matcher annotation t.
Proof.
  intros Ht. unfold is_iterable_type_annotation.
  destruct (if is_generic_type generic_class annotation
            then issubclass subclass issubclass_union (get_origin class_origin annotation)
                   (OClass Iterable)
            else Ok false) as [[|]|e]; cbn [negb]; try reflexivity.
  destruct (get_args annotation) as [|a args]; [reflexivity|].
  unfold candidate_pairs. cbn [flat_map]. rewrite app_nil_r, py_any_map. cbn [fst snd].
  destruct t; try reflexivity. discriminate Ht.
Qed.

(** X17.  Candidates are tried in the order of the tuple: the answer for
    [ts1 ++ ts2] is the answer for [ts1] when that is true or an exception,
    and the answer for [ts2] otherwise. *)
Theorem is_iterable_type_annotation_app (annotation : pyobj cls)
    (ts1 ts2 : list (pyobj cls)) :
  matcher annotation (OTuple (ts1 ++ ts2)) =
  match matcher annotation (OTuple ts1) with
  | Ok false => matcher annotation (OTuple ts2)
  | r => r
  end.
Proof.
  unfold is_iterable_type_annotation.
  destruct (if is_generic_type generic_class annotation
            then issubclass subclass issubclass_union (get_origin class_origin annotation)
                   (OClass Iterable)
            else Ok false) as [[|]|e]; cbn [negb]; try reflexivity.
  destruct (get_args annotation) as [|a args]; [reflexivity|].
  unfold candidate_pairs. rewrite flat_map_app. apply py_any_app.
Qed.

End MatcherMore.


Lemma is_iterable_type_annotation_singleton_witness :
  is_iterable_type_annotation Sample.subclass Sample.k_Iterable Sample.union_check Sample.generic_class Sample.class_origin
    Sample.list_of_lists (OTuple [OClass Sample.k_int])
  = is_iterable_type_annotation Sample.subclass Sample.k_Iterable Sample.union_check Sample.generic_class Sample.class_origin
      Sample.list_of_lists (OClass Sample.k_int).
Proof.
  apply (is_iterable_type_annotation_singleton Sample.subclass Sample.k_Iterable
           Sample.union_check Sample.generic_class Sample.class_origin Sample.list_of_lists (OClass Sample.k_int)).
  reflexivity.
Defined.

(** *** Registering a binding *)

Section Registry.

Context {cls : Type}.
Variable sys_modules : gmap string (PyModule cls).
Variable GenericBinding : Binding.t cls.

Abbreviation loaded_with := (with_registry sys_modules).

(** X18.  Lookup after registration.  With the provider module loaded, a
    binding registered under a name is the one [get_binding] resolves that
    name to, and the one the trigger and annotation checks are delegated
    to; the registration leaves every other name as it was; a module
    loaded under another name changes nothing; and without the provider
    module every name resolves to the generic binding. *)
Theorem get_binding_registered
    (registry : gmap string (Binding.t cls)) (name : string) (b : Binding.t cls) :
  get_binding (loaded_with (<[name := b]> registry)) GenericBinding name = b /\
  is_trigger_binding (loaded_with (<[name := b]> registry)) GenericBinding name
    = Binding.has_trigger_support b /\
  (forall pytype datatype,
     check_input_type_annotation (loaded_with (<[name := b]> registry))
       GenericBinding name pytype datatype
     = Binding.check_input_type_annotation b pytype datatype) /\
  (forall pytype,
     check_output_type_annotation (loaded_with (<[name := b]> registry))
       GenericBinding name pytype
     = Binding.check_output_type_annotation b pytype) /\
  (forall other, other <> name ->
     get_binding (loaded_with (<[name := b]> registry)) GenericBinding other
     = get_binding (loaded_with registry) GenericBinding other) /\
  (forall k m other, k <> "azure.functions" ->
     get_binding (<[k := m]> sys_modules) GenericBinding other
     = get_binding sys_modules GenericBinding other) /\
  (forall other,
     get_binding (delete "azure.functions" sys_modules) GenericBinding other
     = GenericBinding).
Proof.
  assert (Hreg : forall r, get_binding_registry (loaded_with r) = Some r).
  { intros r. unfold get_binding_registry, with_registry.
    now rewrite lookup_insert_eq. }
  assert (Hname : get_binding (loaded_with (<[name := b]> registry))
                    GenericBinding name = b).
  { unfold get_binding. rewrite Hreg. now rewrite lookup_insert_eq. }
  split; [exact Hname|].
  unfold is_trigger_binding, check_input_type_annotation, check_output_type_annotation.
  rewrite Hname. repeat apply conj; try reflexivity.
  - intros other Hne. unfold get_binding. rewrite !Hreg.
    now rewrite lookup_insert_ne.
  - intros k m other Hk. unfold get_binding, get_binding_registry.
    now rewrite lookup_insert_ne.
  - intros other. unfold get_binding, get_binding_registry.
    now rewrite lookup_delete_eq.
Qed.

End Registry.

Lemma get_binding_registered_witness :
  get_binding (with_registry (∅ : gmap string (PyModule Sample.klass))
                 (<["queue" := Sample.text_binding]> Sample.registry))
    Sample.generic_binding "text"
  = get_binding (with_registry (∅ : gmap string (PyModule Sample.klass)) Sample.registry)
      Sample.generic_binding "text".
Proof.
  apply (get_binding_registered (∅ : gmap string (PyModule Sample.klass))
           Sample.generic_binding Sample.registry "queue" Sample.text_binding).
  discriminate.
Defined.
